(** * The analyze action: run orchestration, status reporting, database upload

    A shallow embedding of [src/analyze-action.ts] (the functions
    [sendStatusReport], [uploadDatabases], [run] and [runWrapper]) and of the
    reference resolution exercised by the [getRef] tests.

    Effects are explicit: every collaborator of the action (inputs, environment,
    hosting API, analysis engine, file system) is a field of an environment
    record [Env]; an action is a function from the locals of [run] to a trace of
    observable events, the new locals and either a value or a thrown error. *)

From Stdlib Require Import List String Ascii Bool ZArith Lia.
Import ListNotations.

Set Warnings "-register-all".

Local Open Scope list_scope.
Local Open Scope string_scope.

(** ** Data model *)

Definition Language := string.

(** [QueriesStatusReport] of analyze.ts: per-language timings and the optional
    [analyze_failure_language] field read by [sendStatusReport]. *)
Record QueriesStatusReport := mkQueries {
  q_builtin_queries_duration_ms : list (Language * Z);
  q_custom_queries_duration_ms : list (Language * Z);
  q_failure_language : option Language
}.

(** [UploadStatusReport] of upload-lib.ts; every field is optional. *)
Record UploadStatusReport := mkUpload {
  u_raw_upload_size_bytes : option Z;
  u_zipped_upload_size_bytes : option Z;
  u_num_results_in_sarif : option Z
}.

(** [interface AnalysisStatusReport extends UploadStatusReport, QueriesStatusReport]. *)
Record AnalysisStatusReport := mkAnalysis {
  analyze_builtin_queries_duration_ms : list (Language * Z);
  analyze_custom_queries_duration_ms : list (Language * Z);
  analyze_failure_language : option Language;
  raw_upload_size_bytes : option Z;
  zipped_upload_size_bytes : option Z;
  num_results_in_sarif : option Z
}.

(** The object [{}]: no field is present. *)
Definition emptyStats : AnalysisStatusReport :=
  mkAnalysis [] [] None None None None.

(** [{ ...queriesStats }] *)
Definition spreadQueries (q : QueriesStatusReport) : AnalysisStatusReport :=
  mkAnalysis (q_builtin_queries_duration_ms q) (q_custom_queries_duration_ms q)
             (q_failure_language q) None None None.

(** [{ ...queriesStats, ...uploadStats }]: the two interfaces share no field. *)
Definition spreadQueriesUpload (q : QueriesStatusReport) (u : UploadStatusReport)
  : AnalysisStatusReport :=
  mkAnalysis (q_builtin_queries_duration_ms q) (q_custom_queries_duration_ms q)
             (q_failure_language q)
             (u_raw_upload_size_bytes u) (u_zipped_upload_size_bytes u)
             (u_num_results_in_sarif u).

(** Thrown values.  [CodeQLAnalysisError] carries the partial statistics, an
    HTTP error its status code. *)
Inductive ErrorClass :=
| PlainError
| InvalidStateError
| HTTPError (status : Z)
| CodeQLAnalysisError (queriesStatusReport : QueriesStatusReport).

Record Error := mkError {
  err_class : ErrorClass;
  message : string;
  stack : option string
}.

Definition errorName (e : Error) : string :=
  match err_class e with
  | PlainError => "Error"
  | InvalidStateError => "InvalidStateError"
  | HTTPError _ => "HttpError"
  | CodeQLAnalysisError _ => "CodeQLAnalysisError"
  end.

(** The template-string rendering [`${e}`] of an error: the name alone when
    the message is empty, else the name, a colon and the message. *)
Definition errorToString (e : Error) : string :=
  if message e =? "" then errorName e else errorName e ++ ": " ++ message e.

(** [new Error(msg)] *)
Definition newError (msg : string) : Error := mkError PlainError msg None.

(** The outcome of a call to a collaborator: a value or a thrown error. *)
Inductive Result (A : Type) :=
| Ok (a : A)
| Err (e : Error).
Arguments Ok {A} a.
Arguments Err {A} e.

Inductive GitHubVariant := DOTCOM | GHES | GHAE.

Definition GitHubVariant_eqb (a b : GitHubVariant) : bool :=
  match a, b with
  | DOTCOM, DOTCOM | GHES, GHES | GHAE, GHAE => true
  | _, _ => false
  end.

Record GitHubVersion := mkGitHubVersion {
  gv_type : GitHubVariant;
  gv_version : option string
}.

Record Config := mkConfig {
  languages : list Language;
  gitHubVersion : GitHubVersion;
  codeQLCmd : string;
  tempDir : string
}.

Record GitHubApiDetails := mkApiDetails { auth : string; url : string }.

Record RepositoryNwo := mkNwo { owner : string; repo : string }.

Inductive ActionStatus := Starting | Success | Failure.

Definition ActionStatus_to_string (s : ActionStatus) : string :=
  match s with
  | Starting => "starting"
  | Success => "success"
  | Failure => "failure"
  end.

Record StatusReportBase := mkBase {
  action_name : string;
  status : ActionStatus;
  started_at : Z;
  completed_at : option Z;
  workflow_identity : string;
  cause : option string;
  exception : option string
}.

(** [interface FinishStatusReport extends StatusReportBase, AnalysisStatusReport]:
    the spread [{ ...statusReportBase, ...(stats || {}) }] of two objects with
    disjoint field sets. *)
Record FinishStatusReport := mkFinish {
  base : StatusReportBase;
  analysis : AnalysisStatusReport
}.

(** A directory entry as [fs.readdirSync(dir, { withFileTypes: true })] yields
    it, together with what reading it gives: the bytes of a file, the listing of
    a directory.  A symbolic link is neither a file nor a directory, so the
    entries under a directory form a finite tree. *)
Inductive Dirent :=
| DFile (name : string) (content : Result string)
| DDir (name : string) (listing : Result (list Dirent))
| DOther (name : string).

(** ** Observable events *)

Inductive Event :=
| EvInitializeEnvironment (version : string)
| EvSendStatusReport (r : FinishStatusReport)
| EvGetConfig (dir : string)
| EvRunAnalyze (outputDir : string)
| EvRunCleanup (level : string)
| EvSetOutput (name : string) (value : list (Language * string))
| EvUploadFromActions (outputDir : string)
| EvSetFailed (msg : string)
| EvConsoleLog (e : Error)
| EvLoggerDebug (msg : string)
| EvLoggerInfo (msg : string)
| EvLoggerWarning (msg : string)
| EvApiRequest (route : string)
| EvDatabaseBundle (databasePath bundlePath : string)
| EvCoreInfo (msg : string)
| EvStartGroup (name : string)
| EvStdoutWrite (bytes : string)
| EvEndGroup.

(** ** The collaborators *)

Record Env := mkEnv {
  now : Z;
  reportClock : Z;
  pkg_version : string;
  getInput : string -> string;
  processEnv : string -> string;
  isDebug : bool;
  workflowIdentity : string;
  truncateStack : string -> string;
  statusEndpoint : FinishStatusReport -> bool;
  getTemporaryDirectory : Result string;
  getConfig : string -> Result (option Config);
  getMemoryFlag : option string -> Result string;
  getAddSnippetsFlag : string -> Result string;
  getThreadsFlag : option string -> Result string;
  runAnalyzeEngine : string -> string -> string -> string -> option string -> Config ->
                     Result QueriesStatusReport;
  runCleanupEngine : Config -> string -> Result unit;
  uploadFromActions : string -> GitHubVersion -> GitHubApiDetails -> Result UploadStatusReport;
  parseRepositoryNwo : string -> Result RepositoryNwo;
  isAnalyzingDefaultBranch : Result bool;
  getCodeQLDatabasePath : Config -> Language -> string;
  clientRequest : GitHubApiDetails -> string -> RepositoryNwo -> option string -> Result unit;
  databaseBundle : string -> string -> string -> Result unit;
  readFileSync : string -> Result string;
  readdirSync : string -> Result (list Dirent)
}.

(** ** Reference resolution *)

Module RefResolver.

Definition is_digit (c : ascii) : bool :=
  (48 <=? nat_of_ascii c)%nat && (nat_of_ascii c <=? 57)%nat.

Fixpoint all_digits (s : string) : bool :=
  match s with
  | EmptyString => true
  | String c s' => is_digit c && all_digits s'
  end.

(** The longest prefix of digits, and what follows it. *)
Fixpoint span_digits (s : string) : string * string :=
  match s with
  | EmptyString => (EmptyString, EmptyString)
  | String c s' =>
      if is_digit c
      then let (d, r) := span_digits s' in (String c d, r)
      else (EmptyString, s)
  end.

Fixpoint strip_prefix (p s : string) : option string :=
  match p, s with
  | EmptyString, _ => Some s
  | String a p', String b s' => if Ascii.eqb a b then strip_prefix p' s' else None
  | String _ _, EmptyString => None
  end.

(** The pattern [refs/pull/<n>/merge]: the number [n] when the reference
    matches. *)
Definition pull_number (ref : string) : option string :=
  match strip_prefix "refs/pull/" ref with
  | None => None
  | Some rest =>
      let (n, tail) := span_digits rest in
      if negb (n =? "") && (tail =? "/merge") then Some n else None
  end.

Definition merge_ref (n : string) : string := "refs/pull/" ++ n ++ "/merge".
Definition head_ref (n : string) : string := "refs/pull/" ++ n ++ "/head".

Definition emptyRefError : Error :=
  mkError InvalidStateError "GITHUB_REF environment variable must be set" None.

(** Modelled from the spec: [resolveRef(declaredRef, checkedOutOid,
    currentOidProvider)], the [getRef] of actions-util, of which only the
    tests are among the sources.  It fails with [InvalidStateError] on an
    empty declared reference; a reference outside the merge pattern comes back
    unchanged; for a merge reference the provider is asked for the commit
    checked out now, and the reference is kept when that commit is the
    recorded one and replaced by the head reference otherwise. *)
Definition resolveRef (declaredRef checkedOutOid : string)
           (currentOidProvider : unit -> Result string) : Result string :=
  if declaredRef =? "" then Err emptyRefError
  else match pull_number declaredRef with
       | None => Ok declaredRef
       | Some n =>
           match currentOidProvider tt with
           | Err e => Err e
           | Ok currentOid =>
               if currentOid =? checkedOutOid then Ok declaredRef
               else Ok (head_ref n)
           end
       end.

(** ["a".repeat(40)] *)
Fixpoint repeat_string (s : string) (k : nat) : string :=
  match k with
  | O => EmptyString
  | S k' => s ++ repeat_string s k'
  end.

End RefResolver.

(** ** Actions: trace, locals and exceptions *)

(** The two mutable locals of [run]: [let stats] and [let config]. *)
Record Locals := mkLocals {
  stats : option AnalysisStatusReport;
  config : option Config
}.

Definition initialLocals : Locals := mkLocals None None.

(** An action maps the locals to the events it performs, the locals it leaves
    and its result; the locals written before a throw survive it, as the
    [catch] and [finally] blocks of [run] read them. *)
Definition M (A : Type) : Type := Locals -> list Event * Locals * Result A.

Definition ret {A} (a : A) : M A := fun s => ([], s, Ok a).

Definition throw {A} (e : Error) : M A := fun s => ([], s, Err e).

Definition bind {A B} (m : M A) (k : A -> M B) : M B :=
  fun s =>
    match m s with
    | (t1, s1, Ok a) =>
        match k a s1 with
        | (t2, s2, r) => ((t1 ++ t2)%list, s2, r)
        end
    | (t1, s1, Err e) => (t1, s1, Err e)
    end.

Notation "x <- m ;; k" := (bind m (fun x => k))
  (at level 61, m at next level, right associativity).
Notation "m ;; k" := (bind m (fun _ => k))
  (at level 61, right associativity).

Definition emit (ev : Event) : M unit := fun s => ([ev], s, Ok tt).

Definition liftR {A} (r : Result A) : M A := fun s => ([], s, r).

Definition getLocals : M Locals := fun s => ([], s, Ok s).

Definition setStats (v : AnalysisStatusReport) : M unit :=
  fun s => ([], mkLocals (Some v) (config s), Ok tt).

Definition setConfig (c : option Config) : M unit :=
  fun s => ([], mkLocals (stats s) c, Ok tt).

(** [try { m } catch (e) { h e }] *)
Definition tryCatch {A} (m : M A) (h : Error -> M A) : M A :=
  fun s =>
    match m s with
    | (t1, s1, Ok a) => (t1, s1, Ok a)
    | (t1, s1, Err e) =>
        match h e s1 with
        | (t2, s2, r) => ((t1 ++ t2)%list, s2, r)
        end
    end.

(** [try { m } finally { f }]: [f] runs whatever [m] did; a throw of [f]
    replaces the completion of [m]. *)
Definition tryFinally {A} (m : M A) (f : M unit) : M A :=
  fun s =>
    match m s with
    | (t1, s1, r1) =>
        match f s1 with
        | (t2, s2, Ok _) => ((t1 ++ t2)%list, s2, r1)
        | (t2, s2, Err e) => ((t1 ++ t2)%list, s2, Err e)
        end
    end.

(** [for (const x of xs) { f x }] *)
Definition forEach {A} (f : A -> M unit) : list A -> M unit :=
  fix loop (xs : list A) : M unit :=
    match xs with
    | [] => ret tt
    | x :: xs' => f x ;; loop xs'
    end.

(** How a block ends when it does not throw: it runs off its end or executes a
    [return]. *)
Inductive Completion := Fallthrough | Return.

Definition traceOf {A} (x : list Event * Locals * Result A) : list Event :=
  fst (fst x).
Definition localsOf {A} (x : list Event * Locals * Result A) : Locals :=
  snd (fst x).
Definition resultOf {A} (x : list Event * Locals * Result A) : Result A :=
  snd x.

(** ** Helpers of actions-util and util *)

(** Modelled from the spec: the execution context provider's required inputs
    (actions-util's [getRequiredInput], not among the sources): a required
    input that was not supplied is an error. *)
Definition getRequiredInput (env : Env) (name : string) : M string :=
  let value := getInput env name in
  if value =? "" then throw (newError ("Input required and not supplied: " ++ name))
  else ret value.

(** Modelled from the spec: the optional inputs of the execution context
    provider (actions-util's [getOptionalInput]): absent when empty. *)
Definition getOptionalInput (env : Env) (name : string) : option string :=
  let value := getInput env name in
  if value =? "" then None else Some value.

(** Modelled from the spec: the required environment parameters (util's
    [getRequiredEnvParam]). *)
Definition getRequiredEnvParam (env : Env) (paramName : string) : M string :=
  let value := processEnv env paramName in
  if value =? "" then throw (newError (paramName ++ " environment variable must be set"))
  else ret value.

(** Modelled from the spec: [buildBaseRecord(stage, status, startedAt,
    errorMessage?, errorStack?)], actions-util's [createStatusReportBase]: the
    fixed base of a status record, with the identity of the workflow run, the
    time of the call and the error stack cut to the collaborator's limit. *)
Definition createStatusReportBase (env : Env) (actionName : string)
           (st : ActionStatus) (startedAt : Z)
           (cause exception : option string) : StatusReportBase :=
  mkBase actionName st startedAt
         (match st with Starting => None | _ => Some (reportClock env) end)
         (workflowIdentity env) cause
         (option_map (truncateStack env) exception).

(** Modelled from the spec: [send(record) -> bool], actions-util's
    [sendStatusReport]: the record goes to the hosting API, a failed
    transmission is swallowed, and the answer is [false] only when the server
    asks for the run to stop. *)
Definition actionsUtil_sendStatusReport (env : Env) (r : FinishStatusReport) : M bool :=
  emit (EvSendStatusReport r) ;; ret (statusEndpoint env r).

Definition path_join (a b : string) : string := a ++ "/" ++ b.

Definition isSome {A} (o : option A) : bool :=
  match o with Some _ => true | None => false end.

(** [util.isHTTPError(e) && e.status === 404] *)
Definition isHTTP404 (e : Error) : bool :=
  match err_class e with
  | HTTPError st => (st =? 404)%Z
  | _ => false
  end.

(** [client.request(route, { owner, repo, data })] *)
Definition request (env : Env) (apiDetails : GitHubApiDetails) (route : string)
           (nwo : RepositoryNwo) (data : option string) : M unit :=
  emit (EvApiRequest route) ;; liftR (clientRequest env apiDetails route nwo data).

(** [dbLocations[language] = path] on a plain object: a present key keeps its
    place and takes the new value, a new key goes last. *)
Fixpoint setProperty (o : list (Language * string)) (k : Language) (v : string)
  : list (Language * string) :=
  match o with
  | [] => [(k, v)]
  | (k', v') :: o' => if k' =? k then (k, v) :: o' else (k', v') :: setProperty o' k v
  end.

(** ** analyze-action.ts *)

(** [sendStatusReport(startedAt, stats, error?)], lines 32-53. *)
Definition finishStatus (stats : option AnalysisStatusReport) (error : option Error)
  : ActionStatus :=
  if isSome (match stats with
             | Some s => analyze_failure_language s
             | None => None
             end)
     || isSome error
  then Failure else Success.

Definition finishReport (env : Env) (startedAt : Z)
           (stats : option AnalysisStatusReport) (error : option Error)
  : FinishStatusReport :=
  let statusReportBase :=
    createStatusReportBase env "finish" (finishStatus stats error) startedAt
      (option_map message error)
      (match error with Some e => stack e | None => None end) in
  mkFinish statusReportBase
           (match stats with Some s => s | None => emptyStats end).

Definition sendStatusReport (env : Env) (startedAt : Z)
           (stats : option AnalysisStatusReport) (error : option Error) : M unit :=
  actionsUtil_sendStatusReport env (finishReport env startedAt stats error) ;;
  ret tt.

Definition probeRoute : string := "GET /repos/:owner/:repo/code-scanning/databases".

Definition uploadRoute (language : Language) : string :=
  "PUT /repos/:owner/:repo/code-scanning/databases/" ++ language.

(** The body of the loop of [uploadDatabases], lines 98-119. *)
Definition uploadDatabase (env : Env) (repositoryNwo : RepositoryNwo)
           (config : Config) (apiDetails : GitHubApiDetails)
           (language : Language) : M unit :=
  let databasePath := getCodeQLDatabasePath env config language in
  let databaseBundlePath := databasePath ++ ".zip" in
  emit (EvDatabaseBundle databasePath databaseBundlePath) ;;
  liftR (databaseBundle env (codeQLCmd config) databasePath databaseBundlePath) ;;
  payload <- liftR (readFileSync env databaseBundlePath) ;;
  tryCatch
    (request env apiDetails (uploadRoute language) repositoryNwo (Some payload) ;;
     emit (EvLoggerDebug ("Successfully uploaded database for " ++ language)))
    (fun e =>
       emit (EvConsoleLog e) ;;
       emit (EvLoggerWarning
               ("Failed to upload database for " ++ language ++ ": " ++ errorToString e))).

(** [uploadDatabases(repositoryNwo, config, apiDetails, logger)], lines 55-121.
    The client of [getApiClient(apiDetails)] and the CLI of
    [getCodeQL(config.codeQLCmd)] are the [clientRequest] and [databaseBundle]
    collaborators, given the details and the command they were made from. *)
Definition uploadDatabases (env : Env) (repositoryNwo : RepositoryNwo)
           (config : Config) (apiDetails : GitHubApiDetails) : M unit :=
  flag <- getRequiredInput env "upload-database" ;;
  if negb (flag =? "true") then
    emit (EvLoggerDebug "Database upload disabled in workflow. Skipping upload.")
  else if negb (GitHubVariant_eqb (gv_type (gitHubVersion config)) DOTCOM) then
    emit (EvLoggerDebug "Not running against github.com. Skipping upload.")
  else
    onDefault <- liftR (isAnalyzingDefaultBranch env) ;;
    if negb onDefault then
      emit (EvLoggerDebug "Not analyzing default branch. Skipping upload.")
    else
      probed <- tryCatch
        (request env apiDetails probeRoute repositoryNwo None ;; ret Fallthrough)
        (fun e =>
           (if isHTTP404 e then
              emit (EvLoggerDebug
                      "Repository is not opted in to database uploads. Skipping upload.")
            else
              emit (EvConsoleLog e) ;;
              emit (EvLoggerInfo
                      ("Skipping database upload due to unknown error: " ++ errorToString e))) ;;
           ret Return) ;;
      match probed with
      | Return => ret tt
      | Fallthrough =>
          forEach (uploadDatabase env repositoryNwo config apiDetails) (languages config)
      end.

(** The entries of a log directory, lines 212-227: a file is printed inside a
    group named after it, a directory is walked in turn, anything else is
    skipped. *)
Fixpoint walkEntry (language : Language) (entry : Dirent) {struct entry} : M unit :=
  match entry with
  | DFile name content =>
      emit (EvStartGroup ("CodeQL Debug Logs - " ++ language ++ " - " ++ name)) ;;
      bytes <- liftR content ;;
      emit (EvStdoutWrite bytes) ;;
      emit EvEndGroup
  | DDir name listing =>
      match listing with
      | Err e => throw e
      | Ok entries => forEach (walkEntry language) entries
      end
  | DOther _ => ret tt
  end.

(** [walkLogFiles(dir)], given what [fs.readdirSync(dir)] answers. *)
Definition walkLogFiles (language : Language) (listing : Result (list Dirent)) : M unit :=
  entries <- liftR listing ;;
  forEach (walkEntry language) entries.

Definition configMissingMessage : string :=
  "Config file could not be found at expected location. Has the 'init' action been called?".

Definition cleanupLevelIsNone (level : option string) : bool :=
  match level with
  | Some l => l =? "none"
  | None => false
  end.

Definition dbLocationsOf (env : Env) (cfg : Config) : list (Language * string) :=
  fold_left
    (fun dbLocations language =>
       setProperty dbLocations language (getCodeQLDatabasePath env cfg language))
    (languages cfg) [].

(** The record sent at the "starting" milestone, lines 131-137. *)
Definition startingReport (env : Env) (startedAt : Z) : FinishStatusReport :=
  mkFinish (createStatusReportBase env "finish" Starting startedAt None None)
           emptyStats.

(** Lines 149-194 of the [try] block: what runs once the configuration is
    there. *)
Definition analyzeBlock (env : Env) (cfg : Config) : M Completion :=
  token <- getRequiredInput env "token" ;;
  serverUrl <- getRequiredEnvParam env "GITHUB_SERVER_URL" ;;
  let apiDetails := mkApiDetails token serverUrl in
  outputDir <- getRequiredInput env "output" ;;
  memoryFlag <- liftR (getMemoryFlag env (getOptionalInput env "ram")) ;;
  addSnippets <- getRequiredInput env "add-snippets" ;;
  addSnippetsFlag <- liftR (getAddSnippetsFlag env addSnippets) ;;
  threadsFlag <- liftR (getThreadsFlag env (getOptionalInput env "threads")) ;;
  let category := getOptionalInput env "category" in
  emit (EvRunAnalyze outputDir) ;;
  queriesStats <- liftR (runAnalyzeEngine env outputDir memoryFlag addSnippetsFlag
                                          threadsFlag category cfg) ;;
  (if negb (cleanupLevelIsNone (getOptionalInput env "cleanup-level")) then
     let level := match getOptionalInput env "cleanup-level" with
                  | Some l => l
                  | None => "brutal"
                  end in
     emit (EvRunCleanup level) ;;
     liftR (runCleanupEngine env cfg level)
   else ret tt) ;;
  emit (EvSetOutput "db-locations" (dbLocationsOf env cfg)) ;;
  upload <- getRequiredInput env "upload" ;;
  (if upload =? "true" then
     emit (EvUploadFromActions outputDir) ;;
     uploadStats <- liftR (uploadFromActions env outputDir (gitHubVersion cfg) apiDetails) ;;
     setStats (spreadQueriesUpload queriesStats uploadStats)
   else
     emit (EvLoggerInfo "Not uploading results") ;;
     setStats (spreadQueries queriesStats)) ;;
  nwoText <- getRequiredEnvParam env "GITHUB_REPOSITORY" ;;
  repositoryNwo <- liftR (parseRepositoryNwo env nwoText) ;;
  uploadDatabases env repositoryNwo cfg apiDetails ;;
  ret Fallthrough.

(** Lines 141-194 of the [try] block: what runs once the server let the run
    proceed. *)
Definition proceedBlock (env : Env) : M Completion :=
  dir <- liftR (getTemporaryDirectory env) ;;
  emit (EvGetConfig dir) ;;
  loaded <- liftR (getConfig env dir) ;;
  setConfig loaded ;;
  match loaded with
  | None => throw (newError configMissingMessage)
  | Some cfg => analyzeBlock env cfg
  end.

(** The [try] block of [run], lines 129-194. *)
Definition tryBlock (env : Env) (startedAt : Z) : M Completion :=
  proceed <- actionsUtil_sendStatusReport env (startingReport env startedAt) ;;
  if negb proceed then ret Return else proceedBlock env.

(** The [catch] block of [run], lines 195-204. *)
Definition catchBlock (env : Env) (startedAt : Z) (error : Error) : M Completion :=
  emit (EvSetFailed (message error)) ;;
  emit (EvConsoleLog error) ;;
  match err_class error with
  | CodeQLAnalysisError q => setStats (spreadQueries q)
  | _ => ret tt
  end ;;
  s <- getLocals ;;
  sendStatusReport env startedAt (stats s) (Some error) ;;
  ret Return.

(** The debug dump of one language, lines 209-228. *)
Definition dumpLanguageLogs (env : Env) (cfg : Config) (language : Language) : M unit :=
  let databaseDirectory := getCodeQLDatabasePath env cfg language in
  let logsDirectory := path_join databaseDirectory "log" in
  walkLogFiles language (readdirSync env logsDirectory).

(** The [finally] block of [run], lines 205-231. *)
Definition finallyBlock (env : Env) : M unit :=
  s <- getLocals ;;
  match config s with
  | Some cfg =>
      if isDebug env then
        emit (EvCoreInfo "Debug mode is on. Printing CodeQL debug logs...") ;;
        forEach (dumpLanguageLogs env cfg) (languages cfg)
      else ret tt
  | None => ret tt
  end.

(** [run()], lines 123-234. *)
Definition run (env : Env) : M unit :=
  let startedAt := now env in
  emit (EvInitializeEnvironment (pkg_version env)) ;;
  completion <- tryFinally
                  (tryCatch (tryBlock env startedAt) (catchBlock env startedAt))
                  (finallyBlock env) ;;
  match completion with
  | Return => ret tt
  | Fallthrough =>
      s <- getLocals ;;
      sendStatusReport env startedAt (stats s) None
  end.

(** [runWrapper()], lines 236-243. *)
Definition runWrapper (env : Env) : M unit :=
  tryCatch (run env)
    (fun error =>
       emit (EvSetFailed ("analyze action failed: " ++ errorToString error)) ;;
       emit (EvConsoleLog error)).

(** What a whole run does, from the initial locals. *)
Definition runTrace (env : Env) : list Event := traceOf (run env initialLocals).
Definition runResult (env : Env) : Result unit := resultOf (run env initialLocals).

(** ** Reading a trace *)

Definition sentReport (ev : Event) : option FinishStatusReport :=
  match ev with
  | EvSendStatusReport r => Some r
  | _ => None
  end.

(** The status records of a trace, in the order they were sent. *)
Fixpoint sentReports (tr : list Event) : list FinishStatusReport :=
  match tr with
  | [] => []
  | ev :: tr' =>
      match sentReport ev with
      | Some r => r :: sentReports tr'
      | None => sentReports tr'
      end
  end.

(** A terminal record is one whose status is not "starting". *)
Definition isTerminal (r : FinishStatusReport) : bool :=
  match status (base r) with
  | Starting => false
  | _ => true
  end.

Definition terminalReports (tr : list Event) : list FinishStatusReport :=
  filter isTerminal (sentReports tr).

Definition isSend (ev : Event) : bool := isSome (sentReport ev).

Definition isTerminalSend (ev : Event) : bool :=
  match ev with
  | EvSendStatusReport r => isTerminal r
  | _ => false
  end.

Definition isStartingSend (ev : Event) : bool :=
  match ev with
  | EvSendStatusReport r => negb (isTerminal r)
  | _ => false
  end.

(** The console output of the debug dump. *)
Definition isDumpOutput (ev : Event) : bool :=
  match ev with
  | EvCoreInfo _ | EvStartGroup _ | EvStdoutWrite _ | EvEndGroup => true
  | _ => false
  end.

Definition isRunAnalyze (ev : Event) : bool :=
  match ev with EvRunAnalyze _ => true | _ => false end.

Definition isSetFailed (ev : Event) : bool :=
  match ev with EvSetFailed _ => true | _ => false end.

(** Neither a status record, nor dump output, nor the failure mark: what the
    stages of the [try] block do. *)
Definition isStageEvent (ev : Event) : bool :=
  negb (isSend ev) && negb (isDumpOutput ev) && negb (isSetFailed ev).

(** The routes requested of the hosting API, in order. *)
Fixpoint requestedRoutes (tr : list Event) : list string :=
  match tr with
  | [] => []
  | EvApiRequest route :: tr' => route :: requestedRoutes tr'
  | _ :: tr' => requestedRoutes tr'
  end.

Fixpoint lastEvent (tr : list Event) : option Event :=
  match tr with
  | [] => None
  | [ev] => Some ev
  | _ :: tr' => lastEvent tr'
  end.

(** [needle] occurs in [s]. *)
Fixpoint contains (needle s : string) : bool :=
  String.prefix needle s ||
  match s with
  | EmptyString => false
  | String _ s' => contains needle s'
  end.

(** The terminal discipline as the specification words it: no terminal record
    and the starting record is the last action, or exactly one terminal record
    and it is the last action. *)
Definition oneTerminalOutcome (tr : list Event) : bool :=
  match terminalReports tr, lastEvent tr with
  | [], Some ev => isStartingSend ev
  | [_], Some ev => isTerminalSend ev
  | _, _ => false
  end.

(** Every listing and every file under an entry can be read. *)
Fixpoint walkable (entry : Dirent) : bool :=
  match entry with
  | DFile _ (Ok _) => true
  | DFile _ (Err _) => false
  | DDir _ (Ok entries) => forallb walkable entries
  | DDir _ (Err _) => false
  | DOther _ => true
  end.

(** The log directory of every configured language can be walked. *)
Definition logsReadable (env : Env) (cfg : Config) : bool :=
  forallb
    (fun language =>
       match readdirSync env (path_join (getCodeQLDatabasePath env cfg language) "log") with
       | Ok entries => forallb walkable entries
       | Err _ => false
       end)
    (languages cfg).

(** The debug dump of a run meets no read error: debug mode is off, or the
    logs of the configuration the run loads are readable. *)
Definition dumpReadable (env : Env) : Prop :=
  isDebug env = true ->
  forall dir cfg,
    getTemporaryDirectory env = Ok dir ->
    getConfig env dir = Ok (Some cfg) ->
    logsReadable env cfg = true.

(** The same collaborators with debug mode switched. *)
Definition setDebug (b : bool) (env : Env) : Env :=
  mkEnv (now env) (reportClock env) (pkg_version env) (getInput env) (processEnv env)
        b (workflowIdentity env) (truncateStack env) (statusEndpoint env)
        (getTemporaryDirectory env) (getConfig env) (getMemoryFlag env)
        (getAddSnippetsFlag env) (getThreadsFlag env) (runAnalyzeEngine env)
        (runCleanupEngine env) (uploadFromActions env) (parseRepositoryNwo env)
        (isAnalyzingDefaultBranch env) (getCodeQLDatabasePath env) (clientRequest env)
        (databaseBundle env) (readFileSync env) (readdirSync env).

(** ** Concrete runs *)

Module Scenario.

Definition cfg : Config :=
  mkConfig ["javascript"; "python"] (mkGitHubVersion DOTCOM None) "codeql" "/tmp".

Definition queries : QueriesStatusReport :=
  mkQueries [("javascript", 1200%Z); ("python", 800%Z)] [] None.

Definition uploadStats : UploadStatusReport :=
  mkUpload (Some 2048%Z) (Some 512%Z) (Some 3%Z).

Definition inputs (name : string) : string :=
  if name =? "token" then "secret"
  else if name =? "output" then "/out"
  else if name =? "add-snippets" then "false"
  else if name =? "upload" then "true"
  else if name =? "upload-database" then "true"
  else "".

Definition variables (name : string) : string :=
  if name =? "GITHUB_SERVER_URL" then "https://github.com"
  else if name =? "GITHUB_REPOSITORY" then "octo/repo"
  else "".

Definition nwo : RepositoryNwo := mkNwo "octo" "repo".
Definition api : GitHubApiDetails := mkApiDetails "secret" "https://github.com".

Definition enoent : Error :=
  mkError PlainError "ENOENT: no such file or directory, scandir" None.
Definition bundleError : Error :=
  mkError PlainError "database bundle failed" None.
Definition serverError : Error := mkError (HTTPError 500) "Server Error" None.
Definition analysisError : Error :=
  mkError (CodeQLAnalysisError (mkQueries [] [] (Some "python")))
          "Error running analysis for python" (Some "at runAnalyze").

Definition logs : list Dirent :=
  [DFile "database-create.log" (Ok "created");
   DDir "cli" (Ok [DFile "run.log" (Ok "ran"); DOther "socket"])].

(** A run described by what varies between the scenarios: debug mode, the
    answer to the starting record, the configuration found, the outcome of
    the analysis, of bundling, of each request and of listing a log
    directory. *)
Definition env (debug proceed : bool) (loaded : option Config)
           (analysis : Result QueriesStatusReport)
           (bundle : string -> Result unit)
           (requests : string -> Result unit)
           (listing : string -> Result (list Dirent)) : Env :=
  mkEnv 1000 1500 "1.0.0" inputs variables debug "workflow/job" (fun st => st)
        (fun _ => proceed)
        (Ok "/tmp") (fun _ => Ok loaded)
        (fun _ => Ok "--ram=2048") (fun _ => Ok "--no-sarif-add-snippets")
        (fun _ => Ok "--threads=1")
        (fun _ _ _ _ _ _ => analysis) (fun _ _ => Ok tt)
        (fun _ _ _ => Ok uploadStats) (fun _ => Ok nwo) (Ok true)
        (fun _ language => "/db/" ++ language)
        (fun _ route _ _ => requests route)
        (fun _ databasePath _ => bundle databasePath)
        (fun _ => Ok "zip")
        listing.

Definition allOk {A} (_ : A) : Result unit := Ok tt.

(** Everything succeeds, debug mode is off. *)
Definition happy : Env :=
  env false true (Some cfg) (Ok queries) allOk allOk (fun _ => Ok logs).

(** The server answers the starting record with a request to stop. *)
Definition aborted : Env :=
  env false false (Some cfg) (Ok queries) allOk allOk (fun _ => Ok logs).

(** No configuration was left by an earlier step. *)
Definition noConfig : Env :=
  env false true None (Ok queries) allOk allOk (fun _ => Ok logs).

(** The analysis throws; debug mode is on and the logs are readable. *)
Definition analysisFailsDebug : Env :=
  env true true (Some cfg) (Err analysisError) allOk allOk (fun _ => Ok logs).

(** Everything succeeds, debug mode is on, and no log directory exists. *)
Definition debugNoLogs : Env :=
  env true true (Some cfg) (Ok queries) allOk allOk (fun _ => Err enoent).

(** Everything succeeds, debug mode is on and the logs are readable. *)
Definition debugLogs : Env :=
  env true true (Some cfg) (Ok queries) allOk allOk (fun _ => Ok logs).

(** Bundling the first language's database fails. *)
Definition bundleFails : Env :=
  env false true (Some cfg) (Ok queries)
      (fun databasePath => if databasePath =? "/db/javascript" then Err bundleError else Ok tt)
      allOk (fun _ => Ok logs).

(** The upload of the first language's database is refused. *)
Definition uploadFails : Env :=
  env false true (Some cfg) (Ok queries) allOk
      (fun route => if route =? uploadRoute "javascript" then Err serverError else Ok tt)
      (fun _ => Ok logs).

End Scenario.

(** Induction over a directory tree: the entries of a readable directory
    satisfy the property before the directory does. *)
Section DirentInduction.
Variable P : Dirent -> Prop.
Hypothesis HFile : forall name content, P (DFile name content).
Hypothesis HDir : forall name entries, Forall P entries -> P (DDir name (Ok entries)).
Hypothesis HUnreadable : forall name e, P (DDir name (Err e)).
Hypothesis HOther : forall name, P (DOther name).

Fixpoint Dirent_tree_ind (entry : Dirent) : P entry :=
  match entry with
  | DFile name content => HFile name content
  | DDir name (Ok entries) =>
      HDir name entries
           ((fix each (l : list Dirent) : Forall P l :=
               match l with
               | [] => Forall_nil P
               | d :: l' => Forall_cons d (Dirent_tree_ind d) (each l')
               end) entries)
  | DDir name (Err e) => HUnreadable name e
  | DOther name => HOther name
  end.
End DirentInduction.

(** An action [m] behaves within [E], [I] and [Q]: started from locals that
    satisfy [I] it performs only events of [E], leaves locals that satisfy [I],
    and a value it returns satisfies [Q]. *)
Definition behaves {A} (E : Event -> Prop) (I : Locals -> Prop) (Q : A -> Prop)
           (m : M A) : Prop :=
  forall s, I s ->
    Forall E (traceOf (m s)) /\ I (localsOf (m s)) /\
    (forall a, resultOf (m s) = Ok a -> Q a).

Definition anyValue {A} (_ : A) : Prop := True.

Definition StageEvent (ev : Event) : Prop := isStageEvent ev = true.
Definition DumpOutput (ev : Event) : Prop := isDumpOutput ev = true.

(** ** Notions used in the statements *)

(** Whether a failure is to be reported: an error was supplied, or the
    statistics name a language whose analysis failed. *)
Definition failureReported (stats : option AnalysisStatusReport) (error : option Error)
  : Prop :=
  error <> None \/
  exists st language, stats = Some st /\ analyze_failure_language st = Some language.

(** Bundling and reading back the archive succeed for every configured
    language. *)
Definition bundleReadable (env : Env) (cfg : Config) (language : Language) : Prop :=
  databaseBundle env (codeQLCmd cfg) (getCodeQLDatabasePath env cfg language)
                 (getCodeQLDatabasePath env cfg language ++ ".zip") = Ok tt /\
  exists payload,
    readFileSync env (getCodeQLDatabasePath env cfg language ++ ".zip") = Ok payload.

(** The four eligibility checks of [uploadDatabases] pass. *)
Definition eligible (env : Env) (nwo : RepositoryNwo) (cfg : Config)
           (api : GitHubApiDetails) : bool :=
  (getInput env "upload-database" =? "true")
  && GitHubVariant_eqb (gv_type (gitHubVersion cfg)) DOTCOM
  && match isAnalyzingDefaultBranch env with Ok b => b | Err _ => false end
  && match clientRequest env api probeRoute nwo None with Ok _ => true | Err _ => false end.


(** What a trace shows of the upload of one language's archive: the debug
    line of a success, or the printed error and the warning that quotes it. *)
Definition uploadOutcomeLogged (env : Env) (nwo : RepositoryNwo) (cfg : Config)
           (api : GitHubApiDetails) (language : Language) (tr : list Event) : Prop :=
  forall payload,
    readFileSync env (getCodeQLDatabasePath env cfg language ++ ".zip") = Ok payload ->
    match clientRequest env api (uploadRoute language) nwo (Some payload) with
    | Ok _ => In (EvLoggerDebug ("Successfully uploaded database for " ++ language)) tr
    | Err e =>
        In (EvConsoleLog e) tr /\
        In (EvLoggerWarning
              ("Failed to upload database for " ++ language ++ ": " ++ errorToString e))
           tr
    end.

(** The configuration held in the locals, if any, is the one the provider
    returned. *)
Definition configLoaded (env : Env) (s : Locals) : Prop :=
  config s = None \/
  exists dir, getTemporaryDirectory env = Ok dir /\ getConfig env dir = Ok (config s).

(** The locals the [catch] block leaves: the partial statistics of a
    [CodeQLAnalysisError] replace [stats]. *)
Definition catchLocals (error : Error) (s : Locals) : Locals :=
  match err_class error with
  | CodeQLAnalysisError q => mkLocals (Some (spreadQueries q)) (config s)
  | _ => s
  end.

(** How the [try] and [catch] blocks end, taken together. *)
Inductive TryOutcome (env : Env) : list Event * Locals * Result Completion -> Prop :=
| TryAborted :
    statusEndpoint env (startingReport env (now env)) = false ->
    TryOutcome env
      ([EvSendStatusReport (startingReport env (now env))], initialLocals, Ok Return)
| TryCompleted : forall stage s,
    statusEndpoint env (startingReport env (now env)) = true ->
    Forall StageEvent stage -> configLoaded env s ->
    TryOutcome env
      (EvSendStatusReport (startingReport env (now env)) :: stage, s, Ok Fallthrough)
| TryFailed : forall stage s error,
    statusEndpoint env (startingReport env (now env)) = true ->
    Forall StageEvent stage -> configLoaded env s ->
    TryOutcome env
      (EvSendStatusReport (startingReport env (now env)) ::
       (stage ++
        [EvSetFailed (message error); EvConsoleLog error;
         EvSendStatusReport (finishReport env (now env) (stats s) (Some error))])%list,
       s, Ok Return).

(** What [run] makes of the outcome of its [try] and [catch] blocks: the
    [finally] block, then the final record when the [try] block ran off its
    end. *)
Definition settle (env : Env) (tried : list Event * Locals * Result Completion)
  : list Event * Locals * Result unit :=
  match tried with
  | (t1, s1, r1) =>
      match finallyBlock env s1 with
      | (t2, s2, Ok _) =>
          match r1 with
          | Ok Return =>
              ((EvInitializeEnvironment (pkg_version env) :: t1 ++ t2)%list, s2, Ok tt)
          | Ok Fallthrough =>
              ((EvInitializeEnvironment (pkg_version env) :: t1 ++ t2 ++
                [EvSendStatusReport (finishReport env (now env) (stats s2) None)])%list,
               s2, Ok tt)
          | Err e =>
              ((EvInitializeEnvironment (pkg_version env) :: t1 ++ t2)%list, s2, Err e)
          end
      | (t2, s2, Err e) =>
          ((EvInitializeEnvironment (pkg_version env) :: t1 ++ t2)%list, s2, Err e)
      end
  end.

(** Not part of the console output of the dump. *)
Definition outsideDump (ev : Event) : bool := negb (isDumpOutput ev).

(** ** Notions used in the further properties *)


(** The three checks of [uploadDatabases] that need no request, lines 61-76:
    the flag, the variant of the host, the branch. *)
Definition localChecks (env : Env) (cfg : Config) : bool :=
  (getInput env "upload-database" =? "true")
  && GitHubVariant_eqb (gv_type (gitHubVersion cfg)) DOTCOM
  && match isAnalyzingDefaultBranch env with Ok b => b | Err _ => false end.

Definition isDatabaseBundle (ev : Event) : bool :=
  match ev with EvDatabaseBundle _ _ => true | _ => false end.

Definition isUploadFromActions (ev : Event) : bool :=
  match ev with EvUploadFromActions _ => true | _ => false end.

(** What [uploadDatabases] may do. *)
Definition isDatabaseUploadEvent (ev : Event) : bool :=
  match ev with
  | EvLoggerDebug _ | EvLoggerInfo _ | EvLoggerWarning _ | EvConsoleLog _
  | EvApiRequest _ | EvDatabaseBundle _ _ => true
  | _ => false
  end.

(** What [run] does around the stages of lines 149-194: initialisation,
    loading the configuration, the failure mark and its console line, the dump. *)
Definition isOrchestration (ev : Event) : bool :=
  match ev with
  | EvInitializeEnvironment _ | EvGetConfig _ | EvSetFailed _ | EvConsoleLog _
  | EvCoreInfo _ | EvStartGroup _ | EvStdoutWrite _ | EvEndGroup => true
  | _ => false
  end.

(** The statistics carry no field of the result upload. *)
Definition withoutUploadFields (a : AnalysisStatusReport) : Prop :=
  raw_upload_size_bytes a = None /\
  zipped_upload_size_bytes a = None /\
  num_results_in_sarif a = None.

(** The [catch] block run on the events [t] and the locals [s] the [try]
    block left when it threw [e]. *)
Definition failed (env : Env) (t : list Event) (s : Locals) (e : Error)
  : list Event * Locals * Result Completion :=
  ((t ++ [EvSetFailed (message e); EvConsoleLog e;
          EvSendStatusReport
            (finishReport env (now env) (stats (catchLocals e s)) (Some e))])%list,
   catchLocals e s, Ok Return).

(** The [try] and [catch] blocks of [run] from the initial locals, case by
    case on what the collaborators answer before the stages start. *)
Definition tried (env : Env) : list Event * Locals * Result Completion :=
  let start := EvSendStatusReport (startingReport env (now env)) in
  if statusEndpoint env (startingReport env (now env)) then
    match getTemporaryDirectory env with
    | Err e => failed env [start] initialLocals e
    | Ok dir =>
        match getConfig env dir with
        | Err e => failed env [start; EvGetConfig dir] initialLocals e
        | Ok None =>
            failed env [start; EvGetConfig dir] initialLocals (newError configMissingMessage)
        | Ok (Some cfg) =>
            match analyzeBlock env cfg (mkLocals None (Some cfg)) with
            | (t, s, Ok c) => (start :: EvGetConfig dir :: t, s, Ok c)
            | (t, s, Err e) => failed env (start :: EvGetConfig dir :: t) s e
            end
        end
    end
  else ([start], initialLocals, Ok Return).

(** The stage an event belongs to: analysis, cleanup, publishing the database
    locations, uploading the results, uploading the databases. *)
Definition stageRank (ev : Event) : option nat :=
  match ev with
  | EvRunAnalyze _ => Some 0%nat
  | EvRunCleanup _ => Some 1%nat
  | EvSetOutput _ _ => Some 2%nat
  | EvUploadFromActions _ => Some 3%nat
  | EvApiRequest _ | EvDatabaseBundle _ _ => Some 4%nat
  | _ => None
  end.

(** The stages of a trace, in the order their events occur. *)
Fixpoint stagesOf (tr : list Event) : list nat :=
  match tr with
  | [] => []
  | ev :: tr' =>
      match stageRank ev with
      | Some k => k :: stagesOf tr'
      | None => stagesOf tr'
      end
  end.

(** The stages come in order from [lo] on: each of the first four at most
    once, the events of the database upload last. *)
Fixpoint inStageOrder (lo : nat) (ranks : list nat) : bool :=
  match ranks with
  | [] => true
  | k :: ranks' =>
      (lo <=? k)%nat && inStageOrder (if (k =? 4)%nat then 4%nat else S k) ranks'
  end.

(** The files under an entry with what reading them gives, depth first, in
    the order of the listings. *)
Fixpoint filesUnder (entry : Dirent) : list (string * string) :=
  match entry with
  | DFile name (Ok bytes) => [(name, bytes)]
  | DFile _ (Err _) => []
  | DDir _ (Ok entries) => flat_map filesUnder entries
  | DDir _ (Err _) => []
  | DOther _ => []
  end.

(** The group printed for one log file, lines 216-222. *)
Definition logGroup (language : Language) (file : string * string) : list Event :=
  [EvStartGroup ("CodeQL Debug Logs - " ++ language ++ " - " ++ fst file);
   EvStdoutWrite (snd file);
   EvEndGroup].

(** No result upload, and no field of it in a status record. *)
Definition withoutResultUpload (ev : Event) : Prop :=
  match ev with
  | EvUploadFromActions _ => False
  | EvSendStatusReport r => withoutUploadFields (analysis r)
  | _ => True
  end.

Definition statsWithoutUpload (st : option AnalysisStatusReport) : Prop :=
  match st with
  | Some a => withoutUploadFields a
  | None => True
  end.

(** A cleanup, if any, is run at the level the "cleanup-level" input asks
    for, "brutal" when there is none, and never when it is "none". *)
Definition cleanupAsAsked (env : Env) (ev : Event) : Prop :=
  match ev with
  | EvRunCleanup level =>
      getInput env "cleanup-level" <> "none" /\
      level = (if getInput env "cleanup-level" =? "" then "brutal"
               else getInput env "cleanup-level")
  | _ => True
  end.

Module Scenario2.

(** The host is an enterprise server. *)
Definition enterpriseCfg : Config :=
  mkConfig ["javascript"; "python"] (mkGitHubVersion GHES (Some "3.0")) "codeql" "/tmp".

Definition notFound : Error := mkError (HTTPError 404) "Not Found" None.

(** The repository is not opted in to database uploads. *)
Definition notOptedIn : Env :=
  Scenario.env false true (Some Scenario.cfg) (Ok Scenario.queries) Scenario.allOk
               (fun route => if route =? probeRoute then Err notFound else Ok tt)
               (fun _ => Ok Scenario.logs).

(** Bundling the second language's database fails. *)
Definition secondBundleFails : Env :=
  Scenario.env false true (Some Scenario.cfg) (Ok Scenario.queries)
               (fun databasePath =>
                  if databasePath =? "/db/python" then Err Scenario.bundleError else Ok tt)
               Scenario.allOk (fun _ => Ok Scenario.logs).

(** The workflow asks for no upload of the results and for no cleanup. *)
Definition quietInputs (name : string) : string :=
  if name =? "token" then "secret"
  else if name =? "output" then "/out"
  else if name =? "add-snippets" then "false"
  else if name =? "upload" then "false"
  else if name =? "upload-database" then "true"
  else if name =? "cleanup-level" then "none"
  else "".

Definition quiet : Env :=
  mkEnv 1000 1500 "1.0.0" quietInputs Scenario.variables false "workflow/job"
        (fun st => st) (fun _ => true)
        (Ok "/tmp") (fun _ => Ok (Some Scenario.cfg))
        (fun _ => Ok "--ram=2048") (fun _ => Ok "--no-sarif-add-snippets")
        (fun _ => Ok "--threads=1")
        (fun _ _ _ _ _ _ => Ok Scenario.queries) (fun _ _ => Ok tt)
        (fun _ _ _ => Ok Scenario.uploadStats) (fun _ => Ok Scenario.nwo) (Ok true)
        (fun _ language => "/db/" ++ language)
        (fun _ _ _ _ => Ok tt)
        (fun _ _ _ => Ok tt)
        (fun _ => Ok "zip")
        (fun _ => Ok Scenario.logs).

End Scenario2.

(** ** Reference resolution: the tests and the properties *)

(** The three [getRef] tests of the sources. *)
Example getRef_throws_on_the_empty_string :
  exists e, RefResolver.resolveRef "" (RefResolver.repeat_string "a" 40)
              (fun _ => Ok (RefResolver.repeat_string "a" 40)) = Err e.
Proof. eexists. reflexivity. Qed.

Example getRef_returns_merge_ref_if_sha_still_checked_out :
  RefResolver.resolveRef "refs/pull/1/merge" (RefResolver.repeat_string "a" 40)
    (fun _ => Ok (RefResolver.repeat_string "a" 40)) = Ok "refs/pull/1/merge".
Proof. reflexivity. Qed.

Example getRef_returns_head_ref_if_sha_not_checked_out :
  RefResolver.resolveRef "refs/pull/1/merge" (RefResolver.repeat_string "a" 40)
    (fun _ => Ok (RefResolver.repeat_string "b" 40)) = Ok "refs/pull/1/head".
Proof. reflexivity. Qed.

Lemma span_digits_then_merge :
  forall n, RefResolver.all_digits n = true ->
    RefResolver.span_digits (n ++ "/merge") = (n, "/merge").
Proof.
  induction n as [| c n IH]; intros Hd.
  - reflexivity.
  - simpl in Hd. apply andb_true_iff in Hd as [Hc Hn].
    simpl. rewrite Hc, (IH Hn). reflexivity.
Qed.

Lemma nonempty_eqb_false : forall n : string, n <> "" -> (n =? "") = false.
Proof.
  intros n Hn. destruct (String.eqb_spec n ""); [contradiction | reflexivity].
Qed.

(** A reference [refs/pull/<n>/merge] with [n] a number matches the pattern. *)
Lemma pull_number_merge_ref :
  forall n, RefResolver.all_digits n = true -> n <> "" ->
    RefResolver.pull_number (RefResolver.merge_ref n) = Some n.
Proof.
  intros n Hd Hn. unfold RefResolver.pull_number, RefResolver.merge_ref.
  simpl. rewrite (span_digits_then_merge n Hd), (nonempty_eqb_false n Hn).
  reflexivity.
Qed.

Lemma merge_ref_nonempty : forall n, (RefResolver.merge_ref n =? "") = false.
Proof. intros n. reflexivity. Qed.

(** C2: for a declared reference [refs/pull/<n>/merge], when the provider
    returns the recorded checked-out commit the declared merge reference comes
    back unchanged, and when it returns another commit the result is
    [refs/pull/<n>/head]. *)
Theorem resolveRef_merge_pattern :
  forall n checkedOutOid currentOid provider,
    RefResolver.all_digits n = true -> n <> "" ->
    provider tt = Ok currentOid ->
    (currentOid = checkedOutOid ->
     RefResolver.resolveRef (RefResolver.merge_ref n) checkedOutOid provider
     = Ok (RefResolver.merge_ref n)) /\
    (currentOid <> checkedOutOid ->
     RefResolver.resolveRef (RefResolver.merge_ref n) checkedOutOid provider
     = Ok (RefResolver.head_ref n)).
Proof.
  intros n checkedOutOid currentOid provider Hd Hn Hp.
  unfold RefResolver.resolveRef.
  rewrite merge_ref_nonempty, (pull_number_merge_ref n Hd Hn), Hp.
  split; intros Hc.
  - subst. rewrite String.eqb_refl. reflexivity.
  - destruct (String.eqb_spec currentOid checkedOutOid); [contradiction | reflexivity].
Qed.

(** The two scenarios of the tests, obtained from the property. *)
Lemma resolveRef_merge_pattern_witness :
  RefResolver.resolveRef "refs/pull/1/merge" (RefResolver.repeat_string "a" 40)
    (fun _ => Ok (RefResolver.repeat_string "a" 40)) = Ok "refs/pull/1/merge" /\
  RefResolver.resolveRef "refs/pull/1/merge" (RefResolver.repeat_string "a" 40)
    (fun _ => Ok (RefResolver.repeat_string "b" 40)) = Ok "refs/pull/1/head".
Proof.
  split.
  - apply (resolveRef_merge_pattern "1" (RefResolver.repeat_string "a" 40)
             (RefResolver.repeat_string "a" 40)
             (fun _ => Ok (RefResolver.repeat_string "a" 40)));
      [reflexivity | discriminate | reflexivity | reflexivity].
  - apply (resolveRef_merge_pattern "1" (RefResolver.repeat_string "a" 40)
             (RefResolver.repeat_string "b" 40)
             (fun _ => Ok (RefResolver.repeat_string "b" 40)));
      [reflexivity | discriminate | reflexivity | discriminate].
Defined.

(** C3: on an empty declared reference the resolution fails with an
    [InvalidStateError], whatever the checked-out commit and the provider. *)
Theorem resolveRef_empty_fails :
  forall checkedOutOid provider,
    exists e, RefResolver.resolveRef "" checkedOutOid provider = Err e /\
              errorName e = "InvalidStateError".
Proof.
  intros checkedOutOid provider. exists RefResolver.emptyRefError.
  split; reflexivity.
Qed.

(** ** The final status record *)

Lemma finishStatus_cases :
  forall stats error,
    (failureReported stats error /\ finishStatus stats error = Failure) \/
    (~ failureReported stats error /\ finishStatus stats error = Success).
Proof.
  intros stats error. unfold failureReported, finishStatus.
  destruct error as [e |].
  - left. split; [left; discriminate |].
    rewrite orb_true_r. reflexivity.
  - destruct stats as [st |].
    + destruct (analyze_failure_language st) as [language |] eqn:Hl.
      * left. split; [| reflexivity].
        right. exists st, language. split; [reflexivity | exact Hl].
      * right. split; [| reflexivity].
        intros [H | (st' & l' & H1 & H2)]; [apply H; reflexivity | congruence].
    + right. split; [| reflexivity].
      intros [H | (st' & l' & H1 & H2)]; [apply H; reflexivity | discriminate].
Qed.

(** C1: the status of the record [sendStatusReport] sends is "failure" exactly
    when an error was supplied or the statistics carry an
    [analyze_failure_language], and "success" in every other case. *)
Theorem finish_status_failure_iff :
  forall env startedAt stats error s,
    exists r,
      traceOf (sendStatusReport env startedAt stats error s) = [EvSendStatusReport r] /\
      (ActionStatus_to_string (status (base r)) = "failure" <->
       (error <> None \/
        exists st language,
          stats = Some st /\ analyze_failure_language st = Some language)) /\
      (ActionStatus_to_string (status (base r)) = "success" <->
       ~ (error <> None \/
          exists st language,
            stats = Some st /\ analyze_failure_language st = Some language)).
Proof.
  intros env startedAt stats error s.
  exists (finishReport env startedAt stats error).
  split; [reflexivity |].
  change (status (base (finishReport env startedAt stats error)))
    with (finishStatus stats error).
  fold (failureReported stats error).
  destruct (finishStatus_cases stats error) as [[Hc Hs] | [Hc Hs]]; rewrite Hs; simpl.
  - split; split; intros H; try assumption; try reflexivity;
      try discriminate; contradiction.
  - split; split; intros H; try assumption; try reflexivity;
      try discriminate; contradiction.
Qed.

(** ** Rules for [behaves] *)

Section BehavesRules.
Context {A B : Type}.
Variable E : Event -> Prop.
Variable I : Locals -> Prop.

Lemma behaves_ret : forall (Q : A -> Prop) (a : A), Q a -> behaves E I Q (ret a).
Proof.
  intros Q a Ha s Hs; simpl. repeat split; auto.
  intros a' Heq; inversion Heq; subst; exact Ha.
Qed.

Lemma behaves_throw : forall (Q : A -> Prop) (e : Error), behaves E I Q (throw e).
Proof.
  intros Q e s Hs; simpl. repeat split; auto. intros a' Heq; discriminate.
Qed.

Lemma behaves_liftR : forall (r : Result A), behaves E I anyValue (liftR r).
Proof.
  intros r s Hs; simpl. repeat split; auto.
Qed.

Lemma behaves_bind :
  forall (Q : B -> Prop) (m : M A) (k : A -> M B),
    behaves E I anyValue m -> (forall a, behaves E I Q (k a)) ->
    behaves E I Q (bind m k).
Proof.
  intros Q m k Hm Hk s Hs. unfold bind.
  destruct (Hm s Hs) as (Ht & Hi & _).
  destruct (m s) as [[t1 s1] [a | e]]; simpl in *.
  - destruct (Hk a s1 Hi) as (Ht2 & Hi2 & Hq2).
    destruct (k a s1) as [[t2 s2] r]; simpl in *.
    repeat split; auto. apply Forall_app; split; assumption.
  - repeat split; auto. intros b Heq; discriminate.
Qed.

Lemma behaves_tryCatch :
  forall (Q : A -> Prop) (m : M A) (h : Error -> M A),
    behaves E I Q m -> (forall e, behaves E I Q (h e)) ->
    behaves E I Q (tryCatch m h).
Proof.
  intros Q m h Hm Hh s Hs. unfold tryCatch.
  destruct (Hm s Hs) as (Ht & Hi & Hq).
  destruct (m s) as [[t1 s1] [a | e]]; simpl in *.
  - repeat split; auto.
  - destruct (Hh e s1 Hi) as (Ht2 & Hi2 & Hq2).
    destruct (h e s1) as [[t2 s2] r]; simpl in *.
    repeat split; auto. apply Forall_app; split; assumption.
Qed.

Lemma behaves_forEach :
  forall (f : A -> M unit) (xs : list A),
    (forall x, behaves E I anyValue (f x)) ->
    behaves E I anyValue (forEach f xs).
Proof.
  intros f xs Hf. induction xs as [| x xs IH]; simpl.
  - intros s Hs; simpl. repeat split; auto.
  - intros s Hs. unfold bind.
    destruct (Hf x s Hs) as (Ht & Hi & _).
    destruct (f x s) as [[t1 s1] [[] | e]]; simpl in *.
    + destruct (IH s1 Hi) as (Ht2 & Hi2 & _).
      destruct (forEach f xs s1) as [[t2 s2] r]; simpl in *.
      repeat split; auto. apply Forall_app; split; assumption.
    + repeat split; auto.
Qed.

End BehavesRules.

Lemma behaves_emit :
  forall (E : Event -> Prop) I (ev : Event), E ev -> behaves E I anyValue (emit ev).
Proof.
  intros E I ev Hev s Hs; simpl.
  split; [constructor; [exact Hev | constructor] |].
  split; [exact Hs | intros; exact Logic.I].
Qed.

Lemma behaves_getRequiredInput :
  forall E I env name, behaves E I anyValue (getRequiredInput env name).
Proof.
  intros E I env name. unfold getRequiredInput.
  destruct (getInput env name =? ""); [apply behaves_throw | apply behaves_ret; exact Logic.I].
Qed.

Lemma behaves_getRequiredEnvParam :
  forall E I env name, behaves E I anyValue (getRequiredEnvParam env name).
Proof.
  intros E I env name. unfold getRequiredEnvParam.
  destruct (processEnv env name =? ""); [apply behaves_throw | apply behaves_ret; exact Logic.I].
Qed.

(** Writing [stats] keeps [config]. *)
Lemma behaves_setStats :
  forall E c v, behaves E (fun s => config s = c) anyValue (setStats v).
Proof.
  intros E c v s Hs; simpl. repeat split; auto.
Qed.

Ltac behave :=
  repeat first
    [ apply behaves_getRequiredInput
    | apply behaves_getRequiredEnvParam
    | apply behaves_setStats
    | apply behaves_liftR
    | apply behaves_throw
    | apply behaves_emit; reflexivity
    | apply behaves_ret; first [exact Logic.I | reflexivity]
    | apply behaves_forEach; intros
    | apply behaves_tryCatch; [ | intros ]
    | apply behaves_bind; [ | intros ]
    | match goal with
      | |- behaves _ _ _ (if ?b then _ else _) => destruct b
      | |- behaves _ _ _ (match ?x with _ => _ end) => destruct x
      end ].

(** ** The database upload *)

(** One language's upload performs stage events only and leaves the locals. *)
Lemma uploadDatabase_behaves :
  forall I env nwo cfg api language,
    behaves StageEvent I anyValue (uploadDatabase env nwo cfg api language).
Proof.
  intros. unfold uploadDatabase, request. cbv zeta. behave.
Qed.

Lemma uploadDatabases_behaves :
  forall I env nwo cfg api,
    behaves StageEvent I anyValue (uploadDatabases env nwo cfg api).
Proof.
  intros. unfold uploadDatabases, request. behave.
Qed.

(** With its archive at hand, a language's upload is requested once and the
    iteration completes, whether the request succeeds or fails. *)
Lemma uploadDatabase_attempt :
  forall env nwo cfg api language s,
    bundleReadable env cfg language ->
    exists t,
      uploadDatabase env nwo cfg api language s = (t, s, Ok tt) /\
      requestedRoutes t = [uploadRoute language].
Proof.
  intros env nwo cfg api language s [Hb (payload & Hr)].
  unfold uploadDatabase, request, tryCatch, bind, emit, liftR. cbv zeta.
  rewrite Hb, Hr.
  destruct (clientRequest env api (uploadRoute language) nwo (Some payload)) as [[] | e];
    simpl; eexists; split; reflexivity.
Qed.

Lemma requestedRoutes_app :
  forall t1 t2, requestedRoutes (t1 ++ t2)%list = (requestedRoutes t1 ++ requestedRoutes t2)%list.
Proof.
  induction t1 as [| ev t1 IH]; intros t2; simpl; [reflexivity |].
  destruct ev; simpl; rewrite ?IH; reflexivity.
Qed.

Lemma upload_loop :
  forall env nwo cfg api ls s,
    (forall language, In language ls -> bundleReadable env cfg language) ->
    exists t,
      forEach (uploadDatabase env nwo cfg api) ls s = (t, s, Ok tt) /\
      requestedRoutes t = map uploadRoute ls.
Proof.
  intros env nwo cfg api ls s. induction ls as [| language ls IH]; intros Hall.
  - exists []. split; reflexivity.
  - destruct (uploadDatabase_attempt env nwo cfg api language s) as (t1 & H1 & R1);
      [apply Hall; left; reflexivity |].
    destruct IH as (t2 & H2 & R2); [intros l Hl; apply Hall; right; exact Hl |].
    exists (t1 ++ t2)%list. split.
    + simpl. unfold bind. rewrite H1. simpl in H2. rewrite H2. reflexivity.
    + rewrite requestedRoutes_app, R1, R2. reflexivity.
Qed.

(** In the upload loop every configured language's upload is requested once,
    in order, and the loop completes, whatever each request answers, the
    archives being at hand. *)
Lemma upload_loop_attempts_every_language :
  forall env nwo cfg api s,
    (forall language, In language (languages cfg) -> bundleReadable env cfg language) ->
    requestedRoutes
      (traceOf (forEach (uploadDatabase env nwo cfg api) (languages cfg) s))
    = map uploadRoute (languages cfg) /\
    resultOf (forEach (uploadDatabase env nwo cfg api) (languages cfg) s) = Ok tt /\
    localsOf (forEach (uploadDatabase env nwo cfg api) (languages cfg) s) = s.
Proof.
  intros env nwo cfg api s Hall.
  destruct (upload_loop env nwo cfg api (languages cfg) s Hall) as (t & Ht & Hr).
  rewrite Ht. simpl. auto.
Qed.

Lemma scenario_archives_ready :
  forall language, In language (languages Scenario.cfg) ->
    bundleReadable Scenario.uploadFails Scenario.cfg language.
Proof.
  intros language [<- | [<- | []]]; (split; [reflexivity | eexists; reflexivity]).
Defined.

Example upload_refused_is_logged :
  traceOf (uploadDatabase Scenario.uploadFails Scenario.nwo Scenario.cfg Scenario.api
                          "javascript" initialLocals)
  = [EvDatabaseBundle "/db/javascript" "/db/javascript.zip";
     EvApiRequest "PUT /repos/:owner/:repo/code-scanning/databases/javascript";
     EvConsoleLog Scenario.serverError;
     EvLoggerWarning "Failed to upload database for javascript: HttpError: Server Error"].
Proof. reflexivity. Qed.

Lemma uploadOutcomeLogged_app_l :
  forall env nwo cfg api language t1 t2,
    uploadOutcomeLogged env nwo cfg api language t1 ->
    uploadOutcomeLogged env nwo cfg api language (t1 ++ t2)%list.
Proof.
  intros env nwo cfg api language t1 t2 H payload Hp. specialize (H payload Hp).
  destruct (clientRequest env api (uploadRoute language) nwo (Some payload)).
  - apply in_or_app. left. exact H.
  - destruct H as [H1 H2]. split; apply in_or_app; left; assumption.
Qed.

Lemma uploadOutcomeLogged_app_r :
  forall env nwo cfg api language t1 t2,
    uploadOutcomeLogged env nwo cfg api language t2 ->
    uploadOutcomeLogged env nwo cfg api language (t1 ++ t2)%list.
Proof.
  intros env nwo cfg api language t1 t2 H payload Hp. specialize (H payload Hp).
  destruct (clientRequest env api (uploadRoute language) nwo (Some payload)).
  - apply in_or_app. right. exact H.
  - destruct H as [H1 H2]. split; apply in_or_app; right; assumption.
Qed.

(** With its archive at hand, a language's upload is requested once and its
    outcome is logged: the iteration completes either way. *)
Lemma uploadDatabase_logs_outcome :
  forall env nwo cfg api language s,
    bundleReadable env cfg language ->
    exists t,
      uploadDatabase env nwo cfg api language s = (t, s, Ok tt) /\
      requestedRoutes t = [uploadRoute language] /\
      uploadOutcomeLogged env nwo cfg api language t.
Proof.
  intros env nwo cfg api language s [Hb (payload & Hr)].
  unfold uploadDatabase, request, tryCatch, bind, emit, liftR. cbv zeta.
  rewrite Hb, Hr.
  destruct (clientRequest env api (uploadRoute language) nwo (Some payload))
    as [[] | e] eqn:Hput; simpl; eexists; (split; [reflexivity |]);
    (split; [reflexivity |]); intros payload' Hr'; rewrite Hr in Hr';
    injection Hr' as <-; rewrite Hput.
  - right. right. left. reflexivity.
  - split; [right; right; left; reflexivity | right; right; right; left; reflexivity].
Qed.

Lemma upload_loop_logs :
  forall env nwo cfg api ls s,
    (forall language, In language ls -> bundleReadable env cfg language) ->
    exists t,
      forEach (uploadDatabase env nwo cfg api) ls s = (t, s, Ok tt) /\
      requestedRoutes t = map uploadRoute ls /\
      (forall language, In language ls ->
                        uploadOutcomeLogged env nwo cfg api language t).
Proof.
  intros env nwo cfg api ls s. induction ls as [| l ls IH]; intros Hall.
  - exists []. repeat split. intros language [].
  - destruct (uploadDatabase_logs_outcome env nwo cfg api l s) as (t1 & H1 & R1 & L1);
      [apply Hall; left; reflexivity |].
    destruct IH as (t2 & H2 & R2 & L2); [intros l' Hl'; apply Hall; right; exact Hl' |].
    exists (t1 ++ t2)%list. split; [| split].
    + simpl. unfold bind. rewrite H1. simpl in H2. rewrite H2. reflexivity.
    + rewrite requestedRoutes_app, R1, R2. reflexivity.
    + intros language [<- | Hin].
      * apply uploadOutcomeLogged_app_l. exact L1.
      * apply uploadOutcomeLogged_app_r. apply L2. exact Hin.
Qed.

Lemma true_is_supplied :
  forall v : string, (v =? "true") = true -> (v =? "") = false.
Proof.
  intros v Hv. apply String.eqb_eq in Hv. subst v. reflexivity.
Qed.

(** What [uploadDatabases] does once its four checks have passed: the probe,
    then the loop over the languages. *)
Lemma uploadDatabases_eligible :
  forall env nwo cfg api s,
    eligible env nwo cfg api = true ->
    uploadDatabases env nwo cfg api s
    = match forEach (uploadDatabase env nwo cfg api) (languages cfg) s with
      | (t, s', r) => (EvApiRequest probeRoute :: t, s', r)
      end.
Proof.
  intros env nwo cfg api s He. unfold eligible in He.
  apply andb_true_iff in He as [He Hp]. apply andb_true_iff in He as [He Hb].
  apply andb_true_iff in He as [Hf Hv].
  unfold uploadDatabases, getRequiredInput, request, tryCatch, bind, emit, liftR, ret,
    throw.
  rewrite (true_is_supplied _ Hf), Hf, Hv.
  destruct (isAnalyzingDefaultBranch env) as [[|] | e]; try discriminate Hb.
  destruct (clientRequest env api probeRoute nwo None) as [[] | e];
    try discriminate Hp.
  simpl.
  destruct (forEach (uploadDatabase env nwo cfg api) (languages cfg) s) as [[t s'] r].
  reflexivity.
Qed.

(** On the eligible path with the archives at hand: the probe, then the loop
    over every language, each outcome logged. *)
Lemma uploadDatabases_eligible_path :
  forall env nwo cfg api s,
    eligible env nwo cfg api = true ->
    (forall language, In language (languages cfg) -> bundleReadable env cfg language) ->
    exists t,
      uploadDatabases env nwo cfg api s = (EvApiRequest probeRoute :: t, s, Ok tt) /\
      requestedRoutes t = map uploadRoute (languages cfg) /\
      (forall language, In language (languages cfg) ->
                        uploadOutcomeLogged env nwo cfg api language t).
Proof.
  intros env nwo cfg api s He Hall.
  rewrite (uploadDatabases_eligible env nwo cfg api s He).
  destruct (upload_loop_logs env nwo cfg api (languages cfg) s Hall)
    as (t & Ht & Hr & Hl).
  rewrite Ht. exists t. repeat split; assumption.
Qed.

Lemma no_failure_mark_among_stage_events :
  forall t, Forall StageEvent t -> existsb isSetFailed t = false.
Proof.
  induction 1 as [| ev t Hev Ht IH]; simpl; [reflexivity |].
  destruct ev; try discriminate Hev; simpl; exact IH.
Qed.

(** C6, as stated, fails: when bundling the first language's database fails,
    the upload of no language is requested after the probe, although two
    languages are configured, and the run is marked failed. *)
Lemma upload_loop_stopped_by_bundle_failure :
  languages Scenario.cfg = ["javascript"; "python"] /\
  eligible Scenario.bundleFails Scenario.nwo Scenario.cfg Scenario.api = true /\
  requestedRoutes (traceOf (uploadDatabases Scenario.bundleFails Scenario.nwo
                                            Scenario.cfg Scenario.api initialLocals))
  = [probeRoute] /\
  requestedRoutes (runTrace Scenario.bundleFails) = [probeRoute] /\
  existsb isSetFailed (runTrace Scenario.bundleFails) = true.
Proof. repeat split; reflexivity. Qed.

(** C6, amended: when the checks of [uploadDatabases] have passed and every
    language's archive is bundled and read, the upload of every configured
    language is requested exactly once, in the order of the configuration,
    after the probe, whatever each request answers; a failed upload is printed
    and logged as a warning that names the language and quotes the error, a
    successful one is logged at debug level, and [uploadDatabases] returns
    normally, so that no upload failure reaches [run]. *)
Theorem uploadDatabases_attempts_every_language :
  forall env nwo cfg api s,
    eligible env nwo cfg api = true ->
    (forall language, In language (languages cfg) -> bundleReadable env cfg language) ->
    requestedRoutes (traceOf (uploadDatabases env nwo cfg api s))
    = probeRoute :: map uploadRoute (languages cfg) /\
    resultOf (uploadDatabases env nwo cfg api s) = Ok tt /\
    localsOf (uploadDatabases env nwo cfg api s) = s /\
    existsb isSetFailed (traceOf (uploadDatabases env nwo cfg api s)) = false /\
    (forall language,
        In language (languages cfg) ->
        uploadOutcomeLogged env nwo cfg api language
                            (traceOf (uploadDatabases env nwo cfg api s))).
Proof.
  intros env nwo cfg api s He Hall.
  destruct (uploadDatabases_behaves (fun _ => True) env nwo cfg api s Logic.I)
    as (Hstage & _).
  destruct (uploadDatabases_eligible_path env nwo cfg api s He Hall)
    as (t & Hu & Hr & Hl).
  rewrite Hu in *. unfold traceOf, resultOf, localsOf in *. simpl in *.
  split; [rewrite Hr; reflexivity |]. split; [reflexivity |]. split; [reflexivity |].
  split.
  - inversion Hstage as [| ev t' Hev Ht']; subst.
    apply no_failure_mark_among_stage_events. exact Ht'.
  - intros language Hin.
    apply (uploadOutcomeLogged_app_r env nwo cfg api language [EvApiRequest probeRoute]).
    apply Hl. exact Hin.
Qed.

(** The upload of "javascript" is refused: it is logged as a warning, the
    upload of "python" is requested all the same, and the run is not marked
    failed. *)
Lemma uploadDatabases_attempts_every_language_witness :
  requestedRoutes (traceOf (uploadDatabases Scenario.uploadFails Scenario.nwo
                                            Scenario.cfg Scenario.api initialLocals))
  = [probeRoute;
     "PUT /repos/:owner/:repo/code-scanning/databases/javascript";
     "PUT /repos/:owner/:repo/code-scanning/databases/python"] /\
  resultOf (uploadDatabases Scenario.uploadFails Scenario.nwo Scenario.cfg Scenario.api
                            initialLocals) = Ok tt /\
  In (EvLoggerWarning "Failed to upload database for javascript: HttpError: Server Error")
     (traceOf (uploadDatabases Scenario.uploadFails Scenario.nwo Scenario.cfg
                               Scenario.api initialLocals)) /\
  In (EvLoggerDebug "Successfully uploaded database for python")
     (traceOf (uploadDatabases Scenario.uploadFails Scenario.nwo Scenario.cfg
                               Scenario.api initialLocals)) /\
  existsb isSetFailed (runTrace Scenario.uploadFails) = false.
Proof.
  destruct (uploadDatabases_attempts_every_language Scenario.uploadFails Scenario.nwo
              Scenario.cfg Scenario.api initialLocals eq_refl scenario_archives_ready)
    as (Hroutes & Hres & _ & _ & Hlog).
  split; [exact Hroutes |]. split; [exact Hres |].
  split; [| split; [| reflexivity]].
  - exact (proj2 (Hlog "javascript" (or_introl eq_refl) "zip" eq_refl)).
  - exact (Hlog "python" (or_intror (or_introl eq_refl)) "zip" eq_refl).
Defined.




(** ** The stages of [run] *)

Lemma analyzeBlock_behaves :
  forall env cfg c0,
    behaves StageEvent (fun s => config s = c0) (fun c => c = Fallthrough)
            (analyzeBlock env cfg).
Proof.
  intros env cfg c0. unfold analyzeBlock. cbv zeta.
  repeat (apply behaves_bind;
          [ first [apply uploadDatabases_behaves | solve [behave]] | intros ]).
  apply behaves_ret. reflexivity.
Qed.

Lemma proceedBlock_spec :
  forall env s,
    Forall StageEvent (traceOf (proceedBlock env s)) /\
    (forall c, resultOf (proceedBlock env s) = Ok c -> c = Fallthrough) /\
    (config s = None -> configLoaded env (localsOf (proceedBlock env s))).
Proof.
  intros env s. unfold proceedBlock, bind, liftR, emit, setConfig, throw.
  destruct (getTemporaryDirectory env) as [dir | e] eqn:Hd; simpl.
  2: { repeat split; [constructor | discriminate | intros H; left; exact H]. }
  destruct (getConfig env dir) as [[cfg |] | e] eqn:Hc; simpl.
  - destruct (analyzeBlock_behaves env cfg (Some cfg) (mkLocals (stats s) (Some cfg)))
      as (Ht & Hi & Hq); [reflexivity |].
    destruct (analyzeBlock env cfg (mkLocals (stats s) (Some cfg))) as [[t l] r];
      simpl in *.
    repeat split.
    + constructor; [reflexivity | exact Ht].
    + exact Hq.
    + intros _. right. exists dir. unfold localsOf; simpl.
      split; [exact Hd | rewrite Hc; f_equal; symmetry; exact Hi].
  - repeat split.
    + constructor; [reflexivity | constructor].
    + discriminate.
    + intros _. left. reflexivity.
  - repeat split.
    + constructor; [reflexivity | constructor].
    + discriminate.
    + intros H. left. exact H.
Qed.

Lemma catchBlock_eq :
  forall env startedAt error s,
    catchBlock env startedAt error s
    = ([EvSetFailed (message error); EvConsoleLog error;
        EvSendStatusReport
          (finishReport env startedAt (stats (catchLocals error s)) (Some error))],
       catchLocals error s, Ok Return).
Proof.
  intros env startedAt [[| | st | q] msg stk] s; reflexivity.
Qed.

Lemma catchLocals_config :
  forall error s, config (catchLocals error s) = config s.
Proof.
  intros [[| | st | q] msg stk] s; reflexivity.
Qed.

Lemma tryCatch_outcome :
  forall env,
    TryOutcome env
      (tryCatch (tryBlock env (now env)) (catchBlock env (now env)) initialLocals).
Proof.
  intros env.
  unfold tryCatch, tryBlock, actionsUtil_sendStatusReport, bind, emit, ret.
  destruct (statusEndpoint env (startingReport env (now env))) eqn:Hp; simpl.
  - destruct (proceedBlock_spec env initialLocals) as (Ht & Hq & Hl).
    specialize (Hl eq_refl).
    destruct (proceedBlock env initialLocals) as [[t s] [c | e]]; simpl in *.
    + rewrite (Hq c eq_refl). apply TryCompleted; assumption.
    + rewrite catchBlock_eq.
      apply (TryFailed env t (catchLocals e s) e); [exact Hp | exact Ht |].
      unfold configLoaded in *. rewrite catchLocals_config. exact Hl.
  - apply TryAborted. exact Hp.
Qed.

(** ** The debug dump *)

Lemma behaves_forEach_Forall :
  forall {A} (E : Event -> Prop) (I : Locals -> Prop) (f : A -> M unit) (xs : list A),
    Forall (fun x => behaves E I anyValue (f x)) xs ->
    behaves E I anyValue (forEach f xs).
Proof.
  intros A E I f xs Hall. induction Hall as [| x xs Hx Hxs IH]; simpl.
  - apply behaves_ret. exact Logic.I.
  - apply behaves_bind; [exact Hx | intros _; exact IH].
Qed.

(** The walk prints and does nothing else: it performs dump output only and
    leaves the locals as they are. *)
Lemma walkEntry_behaves :
  forall I language entry, behaves DumpOutput I anyValue (walkEntry language entry).
Proof.
  intros I language entry.
  induction entry as [name content | name entries IH | name e | name]
    using Dirent_tree_ind; simpl.
  - behave.
  - apply behaves_forEach_Forall. exact IH.
  - apply behaves_throw.
  - apply behaves_ret. exact Logic.I.
Qed.

Lemma behaves_getLocals :
  forall E I, behaves E I anyValue getLocals.
Proof.
  intros E I s Hs; simpl.
  split; [constructor | split; [exact Hs | intros; exact Logic.I]].
Qed.

Lemma finallyBlock_behaves :
  forall I env, behaves DumpOutput I anyValue (finallyBlock env).
Proof.
  intros I env. unfold finallyBlock.
  apply behaves_bind; [apply behaves_getLocals | intros s].
  destruct (config s) as [cfg |]; [destruct (isDebug env) |].
  - apply behaves_bind; [apply behaves_emit; reflexivity | intros _].
    apply behaves_forEach. intros language.
    unfold dumpLanguageLogs, walkLogFiles. cbv zeta.
    apply behaves_bind; [apply behaves_liftR | intros entries].
    apply behaves_forEach. intros entry. apply walkEntry_behaves.
  - apply behaves_ret. exact Logic.I.
  - apply behaves_ret. exact Logic.I.
Qed.

(** The [finally] block, whatever it does, prints dump output only and leaves
    the locals. *)
Lemma finallyBlock_dump :
  forall env s,
    exists dump r, finallyBlock env s = (dump, s, r) /\ Forall DumpOutput dump.
Proof.
  intros env s.
  destruct (finallyBlock_behaves (fun s' => s' = s) env s eq_refl) as (Ht & Hi & _).
  destruct (finallyBlock env s) as [[t l] r]. unfold traceOf, localsOf in *.
  simpl in Ht, Hi. rewrite Hi.
  exists t, r. split; [reflexivity | exact Ht].
Qed.

Lemma finallyBlock_off :
  forall env s, isDebug env = false -> finallyBlock env s = ([], s, Ok tt).
Proof.
  intros env s Hd. unfold finallyBlock, bind, getLocals.
  destruct (config s); simpl; [rewrite Hd |]; reflexivity.
Qed.

Lemma finallyBlock_without_config :
  forall env s, config s = None -> finallyBlock env s = ([], s, Ok tt).
Proof.
  intros env s Hc. unfold finallyBlock, bind, getLocals. rewrite Hc. reflexivity.
Qed.

Lemma forEach_completes :
  forall {A} (f : A -> M unit) (xs : list A),
    Forall (fun x => forall s, exists t, f x s = (t, s, Ok tt)) xs ->
    forall s, exists t, forEach f xs s = (t, s, Ok tt).
Proof.
  intros A f xs Hall. induction Hall as [| x xs Hx Hxs IH]; intros s; simpl.
  - exists []. reflexivity.
  - destruct (Hx s) as (t1 & H1). destruct (IH s) as (t2 & H2).
    exists (t1 ++ t2)%list. unfold bind. rewrite H1, H2. reflexivity.
Qed.

(** A walkable entry is walked to its end. *)
Lemma walkEntry_completes :
  forall language entry,
    walkable entry = true ->
    forall s, exists t, walkEntry language entry s = (t, s, Ok tt).
Proof.
  intros language entry.
  induction entry as [name content | name entries IH | name e | name]
    using Dirent_tree_ind; simpl; intros Hw.
  - destruct content as [bytes | e]; [| discriminate].
    intros s. eexists. reflexivity.
  - apply forEach_completes.
    rewrite forallb_forall in Hw. rewrite Forall_forall in *.
    intros d Hd. apply IH; [exact Hd | apply Hw; exact Hd].
  - discriminate.
  - intros s. eexists. reflexivity.
Qed.

Lemma dump_completes :
  forall env cfg s,
    logsReadable env cfg = true ->
    exists t, forEach (dumpLanguageLogs env cfg) (languages cfg) s = (t, s, Ok tt).
Proof.
  intros env cfg s Hr. unfold logsReadable in Hr. rewrite forallb_forall in Hr.
  apply forEach_completes. rewrite Forall_forall. intros language Hl s'.
  specialize (Hr language Hl).
  unfold dumpLanguageLogs, walkLogFiles, bind, liftR. cbv zeta.
  destruct (readdirSync env (path_join (getCodeQLDatabasePath env cfg language) "log"))
    as [entries | e]; [| discriminate].
  destruct (forEach_completes (walkEntry language) entries) with (s := s') as (t & Ht).
  - rewrite forallb_forall in Hr. rewrite Forall_forall.
    intros d Hd. apply walkEntry_completes. apply Hr. exact Hd.
  - rewrite Ht. eexists. reflexivity.
Qed.

(** When the dump meets no read error the [finally] block completes. *)
Lemma finallyBlock_completes :
  forall env s,
    dumpReadable env -> configLoaded env s ->
    exists dump, finallyBlock env s = (dump, s, Ok tt) /\ Forall DumpOutput dump.
Proof.
  intros env s Hread Hload.
  destruct (finallyBlock_dump env s) as (dump & r & Hf & Hd).
  exists dump. split; [| exact Hd]. rewrite Hf. f_equal.
  assert (Hres : resultOf (finallyBlock env s) = Ok tt).
  { destruct (isDebug env) eqn:Hdbg; [| rewrite finallyBlock_off; auto].
    destruct Hload as [Hnone | (dir & Hdir & Hcfg)];
      [rewrite finallyBlock_without_config; auto |].
    unfold finallyBlock, bind, getLocals.
    destruct (config s) as [cfg |] eqn:Hc; simpl; [| reflexivity].
    rewrite Hdbg. simpl.
    destruct (dump_completes env cfg s (Hread Hdbg dir cfg Hdir Hcfg)) as (t & Ht).
    rewrite Ht. reflexivity. }
  rewrite Hf in Hres. exact Hres.
Qed.

(** ** The whole run *)

Lemma run_eq :
  forall env,
    run env initialLocals
    = settle env (tryCatch (tryBlock env (now env)) (catchBlock env (now env))
                           initialLocals).
Proof.
  intros env. unfold run, settle, tryFinally, bind, emit. cbv zeta.
  generalize (tryCatch (tryBlock env (now env)) (catchBlock env (now env)) initialLocals).
  intros [[t1 s1] r1].
  destruct (finallyBlock env s1) as [[t2 s2] [[] | e]];
    destruct r1 as [[|] | e']; simpl;
    rewrite ?app_nil_r, ?app_assoc; reflexivity.
Qed.

Lemma sentReports_app :
  forall t1 t2, sentReports (t1 ++ t2)%list = (sentReports t1 ++ sentReports t2)%list.
Proof.
  induction t1 as [| ev t1 IH]; intros t2; simpl; [reflexivity |].
  destruct (sentReport ev); simpl; rewrite IH; reflexivity.
Qed.

Lemma sentReports_stage :
  forall t, Forall StageEvent t -> sentReports t = [].
Proof.
  induction 1 as [| ev t Hev Ht IH]; simpl; [reflexivity |].
  destruct ev; try discriminate Hev; simpl; exact IH.
Qed.

Lemma sentReports_dump :
  forall t, Forall DumpOutput t -> sentReports t = [].
Proof.
  induction 1 as [| ev t Hev Ht IH]; simpl; [reflexivity |].
  destruct ev; try discriminate Hev; simpl; exact IH.
Qed.

Lemma setFailed_stage :
  forall t, Forall StageEvent t -> existsb isSetFailed t = false.
Proof.
  induction 1 as [| ev t Hev Ht IH]; simpl; [reflexivity |].
  destruct ev; try discriminate Hev; simpl; exact IH.
Qed.

Lemma setFailed_dump :
  forall t, Forall DumpOutput t -> existsb isSetFailed t = false.
Proof.
  induction 1 as [| ev t Hev Ht IH]; simpl; [reflexivity |].
  destruct ev; try discriminate Hev; simpl; exact IH.
Qed.

Lemma outsideDump_stage :
  forall t, Forall StageEvent t -> filter outsideDump t = t.
Proof.
  induction 1 as [| ev t Hev Ht IH]; simpl; [reflexivity |].
  destruct ev; try discriminate Hev; simpl; rewrite IH; reflexivity.
Qed.

Lemma outsideDump_dump :
  forall t, Forall DumpOutput t -> filter outsideDump t = [].
Proof.
  induction 1 as [| ev t Hev Ht IH]; simpl; [reflexivity |].
  destruct ev; try discriminate Hev; simpl; exact IH.
Qed.

Lemma finishReport_terminal :
  forall env startedAt st error,
    isTerminal (finishReport env startedAt st error) = true.
Proof.
  intros env startedAt st error. unfold isTerminal.
  change (status (base (finishReport env startedAt st error)))
    with (finishStatus st error).
  destruct (finishStatus_cases st error) as [[_ H] | [_ H]]; rewrite H; reflexivity.
Qed.

(** C4: when the starting record is answered with a request to stop, the run
    consists of the initialisation and of that one record, and returns: no
    configuration is read, no analysis, cleanup or upload is run, no other
    record is sent. *)
Theorem run_abort_at_start :
  forall env,
    statusEndpoint env (startingReport env (now env)) = false ->
    run env initialLocals
    = ([EvInitializeEnvironment (pkg_version env);
        EvSendStatusReport (startingReport env (now env))],
       initialLocals, Ok tt).
Proof.
  intros env Habort. rewrite run_eq.
  unfold tryCatch, tryBlock, actionsUtil_sendStatusReport, bind, emit, ret.
  rewrite Habort. reflexivity.
Qed.

Lemma run_abort_at_start_witness :
  run Scenario.aborted initialLocals
  = ([EvInitializeEnvironment "1.0.0";
      EvSendStatusReport (startingReport Scenario.aborted 1000)],
     initialLocals, Ok tt).
Proof.
  apply (run_abort_at_start Scenario.aborted). reflexivity.
Defined.

(** C7: when the starting record lets the run proceed and the configuration
    provider returns no configuration, the run is marked failed with the
    message that names the 'init' action, a failure record carrying that
    message is the last thing it does, the analysis engine is not invoked, and
    the run returns. *)
Theorem run_without_config :
  forall env dir,
    statusEndpoint env (startingReport env (now env)) = true ->
    getTemporaryDirectory env = Ok dir ->
    getConfig env dir = Ok None ->
    run env initialLocals
    = ([EvInitializeEnvironment (pkg_version env);
        EvSendStatusReport (startingReport env (now env));
        EvGetConfig dir;
        EvSetFailed configMissingMessage;
        EvConsoleLog (newError configMissingMessage);
        EvSendStatusReport
          (finishReport env (now env) None (Some (newError configMissingMessage)))],
       initialLocals, Ok tt) /\
    ActionStatus_to_string
      (status (base (finishReport env (now env) None
                                  (Some (newError configMissingMessage))))) = "failure" /\
    cause (base (finishReport env (now env) None (Some (newError configMissingMessage))))
    = Some configMissingMessage /\
    contains "the 'init' action" configMissingMessage = true /\
    existsb isRunAnalyze (runTrace env) = false.
Proof.
  intros env dir Hp Hd Hc.
  assert (Hrun : run env initialLocals
                 = ([EvInitializeEnvironment (pkg_version env);
                     EvSendStatusReport (startingReport env (now env));
                     EvGetConfig dir;
                     EvSetFailed configMissingMessage;
                     EvConsoleLog (newError configMissingMessage);
                     EvSendStatusReport
                       (finishReport env (now env) None
                                     (Some (newError configMissingMessage)))],
                    initialLocals, Ok tt)).
  { rewrite run_eq.
    unfold tryCatch, tryBlock, proceedBlock, actionsUtil_sendStatusReport, bind, emit,
      ret, liftR, setConfig, throw.
    rewrite Hp, Hd. simpl. rewrite Hc. reflexivity. }
  split; [exact Hrun |].
  unfold runTrace. rewrite Hrun.
  repeat split; reflexivity.
Qed.

Lemma run_without_config_witness :
  runTrace Scenario.noConfig
  = [EvInitializeEnvironment "1.0.0";
     EvSendStatusReport (startingReport Scenario.noConfig 1000);
     EvGetConfig "/tmp";
     EvSetFailed configMissingMessage;
     EvConsoleLog (newError configMissingMessage);
     EvSendStatusReport
       (finishReport Scenario.noConfig 1000 None (Some (newError configMissingMessage)))] /\
  existsb isRunAnalyze (runTrace Scenario.noConfig) = false.
Proof.
  destruct (run_without_config Scenario.noConfig "/tmp") as (Hrun & _ & _ & _ & Hno);
    [reflexivity | reflexivity | reflexivity |].
  split; [unfold runTrace; rewrite Hrun; reflexivity | exact Hno].
Defined.

(** Debug mode is read by the [finally] block only. *)
Lemma try_catch_ignores_debug :
  forall b env,
    tryCatch (tryBlock (setDebug b env) (now (setDebug b env)))
             (catchBlock (setDebug b env) (now (setDebug b env)))
    = tryCatch (tryBlock env (now env)) (catchBlock env (now env)).
Proof. intros b env. reflexivity. Qed.

Lemma finishReport_ignores_debug :
  forall b env startedAt st error,
    finishReport (setDebug b env) startedAt st error = finishReport env startedAt st error.
Proof. intros. reflexivity. Qed.

(** The status records of a run: the starting record, then at most one record
    built by [sendStatusReport]. *)
Lemma run_reports :
  forall env,
    exists rest,
      sentReports (runTrace env) = startingReport env (now env) :: rest /\
      (rest = [] \/ exists st error, rest = [finishReport env (now env) st error]).
Proof.
  intros env. unfold runTrace. rewrite run_eq.
  pose proof (tryCatch_outcome env) as Hout.
  inversion Hout as [Hp Heq | stage s Hp Hstage Hload Heq | stage s error Hp Hstage Hload Heq];
    clear Hout; unfold settle;
    [ destruct (finallyBlock_dump env initialLocals) as (dump & r & Hf & Hd)
    | destruct (finallyBlock_dump env s) as (dump & r & Hf & Hd)
    | destruct (finallyBlock_dump env s) as (dump & r & Hf & Hd) ];
    rewrite Hf; destruct r as [[] | e]; unfold traceOf; simpl;
    rewrite ?sentReports_app, ?(sentReports_stage _ Hstage), ?(sentReports_dump _ Hd);
    simpl; eexists; (split; [reflexivity |]); eauto.
Qed.

(** C10: every status record of a run carries the action name "finish"; the
    first one has the status "starting" and any later one the status "success"
    or "failure", so the milestones differ by the status field only. *)
Theorem status_records_share_the_finish_name :
  forall env,
    exists first rest,
      sentReports (runTrace env) = first :: rest /\
      ActionStatus_to_string (status (base first)) = "starting" /\
      Forall (fun r => ActionStatus_to_string (status (base r)) = "success" \/
                       ActionStatus_to_string (status (base r)) = "failure") rest /\
      Forall (fun r => action_name (base r) = "finish") (first :: rest).
Proof.
  intros env. destruct (run_reports env) as (rest & Hsent & Hrest).
  exists (startingReport env (now env)), rest.
  split; [exact Hsent |]. split; [reflexivity |].
  destruct Hrest as [-> | (st & error & ->)].
  - split; repeat constructor.
  - split.
    + constructor; [| constructor].
      change (status (base (finishReport env (now env) st error)))
        with (finishStatus st error).
      destruct (finishStatus_cases st error) as [[_ H] | [_ H]]; rewrite H;
        [right | left]; reflexivity.
    + repeat constructor.
Qed.

(** When the dump meets no read error, the run returns. *)
Lemma run_returns :
  forall env, dumpReadable env -> runResult env = Ok tt.
Proof.
  intros env Hread. unfold runResult. rewrite run_eq.
  pose proof (tryCatch_outcome env) as Hout.
  inversion Hout as [Hp Heq | stage s Hp Hstage Hload Heq | stage s error Hp Hstage Hload Heq];
    clear Hout; unfold settle.
  - rewrite finallyBlock_without_config; reflexivity.
  - destruct (finallyBlock_completes env s Hread Hload) as (dump & Hf & Hd).
    rewrite Hf. reflexivity.
  - destruct (finallyBlock_completes env s Hread Hload) as (dump & Hf & Hd).
    rewrite Hf. reflexivity.
Qed.

Lemma lastEvent_snoc :
  forall t ev, lastEvent (t ++ [ev])%list = Some ev.
Proof.
  induction t as [| ev' t IH]; intros ev; [reflexivity |].
  simpl. rewrite IH. destruct (t ++ [ev])%list eqn:Ht; [| reflexivity].
  destruct t; discriminate Ht.
Qed.

Lemma oneTerminalOutcome_snoc :
  forall t r,
    terminalReports t = [] -> isTerminal r = true ->
    oneTerminalOutcome (t ++ [EvSendStatusReport r]) = true.
Proof.
  intros t r Ht Hr. unfold oneTerminalOutcome.
  assert (H : terminalReports (t ++ [EvSendStatusReport r]) = [r]).
  { unfold terminalReports in *. rewrite sentReports_app, filter_app, Ht.
    simpl. rewrite Hr. reflexivity. }
  rewrite H, lastEvent_snoc. exact Hr.
Qed.

(** With debug mode off the [finally] block does nothing, and the record of
    the [catch] block or of the end of [run] is the last action. *)
Lemma terminal_record_last_without_debug :
  forall env, isDebug env = false -> oneTerminalOutcome (runTrace env) = true.
Proof.
  intros env Hoff. unfold runTrace. rewrite run_eq.
  pose proof (tryCatch_outcome env) as Hout.
  inversion Hout as [Hp Heq | stage s Hp Hstage Hload Heq | stage s error Hp Hstage Hload Heq];
    clear Hout; unfold settle; rewrite (finallyBlock_off env _ Hoff);
    unfold traceOf, fst.
  - reflexivity.
  - replace (EvInitializeEnvironment (pkg_version env)
               :: (EvSendStatusReport (startingReport env (now env)) :: stage) ++ [] ++
                  [EvSendStatusReport (finishReport env (now env) (stats s) None)])%list
      with ((EvInitializeEnvironment (pkg_version env)
               :: EvSendStatusReport (startingReport env (now env)) :: stage)
              ++ [EvSendStatusReport (finishReport env (now env) (stats s) None)])%list
      by reflexivity.
    apply oneTerminalOutcome_snoc; [| apply finishReport_terminal].
    unfold terminalReports. simpl. rewrite (sentReports_stage _ Hstage). reflexivity.
  - replace (EvInitializeEnvironment (pkg_version env)
               :: (EvSendStatusReport (startingReport env (now env))
                     :: stage ++
                        [EvSetFailed (message error); EvConsoleLog error;
                         EvSendStatusReport
                           (finishReport env (now env) (stats s) (Some error))]) ++ [])%list
      with ((EvInitializeEnvironment (pkg_version env)
               :: EvSendStatusReport (startingReport env (now env))
               :: stage ++ [EvSetFailed (message error); EvConsoleLog error])
              ++ [EvSendStatusReport (finishReport env (now env) (stats s) (Some error))])%list
      by (rewrite app_nil_r; simpl; rewrite <- app_assoc; reflexivity).
    apply oneTerminalOutcome_snoc; [| apply finishReport_terminal].
    unfold terminalReports. simpl.
    rewrite sentReports_app, (sentReports_stage _ Hstage). reflexivity.
Qed.

(** C8, as stated, fails: when the analysis throws in debug mode, the failure
    record is sent by the [catch] block and the [finally] block prints the logs
    after it, so the terminal record is not the last action of the run. *)
Lemma terminal_record_not_last_in_debug :
  oneTerminalOutcome (runTrace Scenario.analysisFailsDebug) = false /\
  runResult Scenario.analysisFailsDebug = Ok tt /\
  List.length (terminalReports (runTrace Scenario.analysisFailsDebug)) = 1%nat /\
  lastEvent (runTrace Scenario.analysisFailsDebug) = Some EvEndGroup.
Proof. repeat split; reflexivity. Qed.

(** C8, amended: a run whose debug dump meets no read error returns, and ends
    in exactly one of three ways: the server stopped it at the starting record
    and no terminal record is sent; it was marked failed and sent a single
    terminal record, of status "failure", followed by dump output only; or it
    was not marked failed and its single terminal record is its last action.
    With debug mode off the terminal record is the last action in either case. *)
Theorem run_one_terminal_outcome :
  forall env,
    dumpReadable env ->
    runResult env = Ok tt /\
    ((statusEndpoint env (startingReport env (now env)) = false /\
      runTrace env = [EvInitializeEnvironment (pkg_version env);
                      EvSendStatusReport (startingReport env (now env))] /\
      terminalReports (runTrace env) = []) \/
     (exists before r dump,
         runTrace env = (before ++ EvSendStatusReport r :: dump)%list /\
         terminalReports (runTrace env) = [r] /\
         ActionStatus_to_string (status (base r)) = "failure" /\
         existsb isSetFailed before = true /\
         Forall DumpOutput dump) \/
     (exists before r,
         runTrace env = (before ++ [EvSendStatusReport r])%list /\
         terminalReports (runTrace env) = [r] /\
         existsb isSetFailed (runTrace env) = false)) /\
    (isDebug env = false -> oneTerminalOutcome (runTrace env) = true).
Proof.
  intros env Hread. split; [apply run_returns; exact Hread |].
  split; [| apply terminal_record_last_without_debug].
  unfold runTrace. rewrite run_eq.
  pose proof (tryCatch_outcome env) as Hout.
  inversion Hout as [Hp Heq | stage s Hp Hstage Hload Heq | stage s error Hp Hstage Hload Heq];
    clear Hout; unfold settle.
  - left. rewrite finallyBlock_without_config by reflexivity.
    split; [exact Hp |]. split; reflexivity.
  - right. right.
    destruct (finallyBlock_completes env s Hread Hload) as (dump & Hf & Hd).
    rewrite Hf. unfold traceOf; simpl.
    exists (EvInitializeEnvironment (pkg_version env)
              :: EvSendStatusReport (startingReport env (now env)) :: stage ++ dump)%list,
           (finishReport env (now env) (stats s) None).
    split; [simpl; rewrite <- app_assoc; reflexivity |].
    split.
    + unfold terminalReports. simpl.
      rewrite !sentReports_app, (sentReports_stage _ Hstage), (sentReports_dump _ Hd).
      simpl. rewrite finishReport_terminal. reflexivity.
    + simpl. rewrite !existsb_app, (setFailed_stage _ Hstage), (setFailed_dump _ Hd).
      reflexivity.
  - right. left.
    destruct (finallyBlock_completes env s Hread Hload) as (dump & Hf & Hd).
    rewrite Hf. unfold traceOf; simpl.
    exists (EvInitializeEnvironment (pkg_version env)
              :: EvSendStatusReport (startingReport env (now env))
              :: stage ++ [EvSetFailed (message error); EvConsoleLog error])%list,
           (finishReport env (now env) (stats s) (Some error)), dump.
    split; [simpl; rewrite <- !app_assoc; reflexivity |].
    split; [| split; [| split]].
    + unfold terminalReports. simpl.
      rewrite !sentReports_app, (sentReports_stage _ Hstage), (sentReports_dump _ Hd).
      simpl. rewrite finishReport_terminal. reflexivity.
    + change (status (base (finishReport env (now env) (stats s) (Some error))))
        with (finishStatus (stats s) (Some error)).
      unfold finishStatus. rewrite orb_true_r. reflexivity.
    + simpl. rewrite existsb_app. simpl. apply orb_true_r.
    + exact Hd.
Qed.

Lemma scenario_dump_readable : dumpReadable Scenario.analysisFailsDebug.
Proof.
  intros _ dir cfg _ Hcfg. injection Hcfg as <-. reflexivity.
Defined.

(** The analysis throws in debug mode with readable logs: the run returns and
    sends one terminal record. *)
Lemma run_one_terminal_outcome_witness :
  runResult Scenario.analysisFailsDebug = Ok tt /\
  List.length (terminalReports (runTrace Scenario.analysisFailsDebug)) = 1%nat.
Proof.
  destruct (run_one_terminal_outcome Scenario.analysisFailsDebug scenario_dump_readable)
    as (Hres & _).
  split; [exact Hres | reflexivity].
Defined.

(** C9, as stated, fails: in debug mode with a configuration loaded and no log
    directory on disk, listing the directory throws out of the [finally] block;
    the run throws and sends no terminal record, whereas the same run without
    debug mode returns and sends one. *)
Lemma debug_dump_can_suppress_the_final_record :
  runResult Scenario.debugNoLogs = Err Scenario.enoent /\
  terminalReports (runTrace Scenario.debugNoLogs) = [] /\
  runResult (setDebug false Scenario.debugNoLogs) = Ok tt /\
  List.length (terminalReports (runTrace (setDebug false Scenario.debugNoLogs))) = 1%nat.
Proof. repeat split; reflexivity. Qed.

(** C9, amended: the dump runs only in debug mode with a configuration
    loaded, and when it meets no read error it changes neither the control
    flow nor the status records of the run: apart from the dump's own console
    output, the run is the one that debug mode off gives, event for event, with
    the same result, the same locals and the same records. *)
Theorem debug_dump_is_a_frame :
  forall env,
    dumpReadable env ->
    runResult env = runResult (setDebug false env) /\
    localsOf (run env initialLocals) = localsOf (run (setDebug false env) initialLocals) /\
    sentReports (runTrace env) = sentReports (runTrace (setDebug false env)) /\
    filter outsideDump (runTrace env) = runTrace (setDebug false env) /\
    (forall s, isDebug env = false \/ config s = None ->
               finallyBlock env s = ([], s, Ok tt)).
Proof.
  intros env Hread.
  assert (Hmain :
            run env initialLocals = run (setDebug false env) initialLocals \/
            exists t1 dump tail s,
              Forall DumpOutput dump /\
              filter outsideDump t1 = t1 /\ filter outsideDump tail = tail /\
              run env initialLocals = ((t1 ++ dump ++ tail)%list, s, Ok tt) /\
              run (setDebug false env) initialLocals = ((t1 ++ tail)%list, s, Ok tt)).
  { rewrite !run_eq, try_catch_ignores_debug.
    pose proof (tryCatch_outcome env) as Hout.
    inversion Hout as [Hp Heq | stage s Hp Hstage Hload Heq
                       | stage s error Hp Hstage Hload Heq];
      clear Hout; unfold settle.
    - left. rewrite !finallyBlock_without_config by reflexivity. reflexivity.
    - right.
      destruct (finallyBlock_completes env s Hread Hload) as (dump & Hf & Hd).
      rewrite Hf, (finallyBlock_off (setDebug false env) s eq_refl).
      exists (EvInitializeEnvironment (pkg_version env)
                :: EvSendStatusReport (startingReport env (now env)) :: stage)%list,
             dump, [EvSendStatusReport (finishReport env (now env) (stats s) None)], s.
      split; [exact Hd |].
      split; [simpl; rewrite (outsideDump_stage _ Hstage); reflexivity |].
      split; [reflexivity |].
      split; reflexivity.
    - right.
      destruct (finallyBlock_completes env s Hread Hload) as (dump & Hf & Hd).
      rewrite Hf, (finallyBlock_off (setDebug false env) s eq_refl).
      exists (EvInitializeEnvironment (pkg_version env)
                :: EvSendStatusReport (startingReport env (now env))
                :: stage ++
                   [EvSetFailed (message error); EvConsoleLog error;
                    EvSendStatusReport
                      (finishReport env (now env) (stats s) (Some error))])%list,
             dump, [], s.
      split; [exact Hd |].
      split; [simpl; rewrite filter_app, (outsideDump_stage _ Hstage); reflexivity |].
      split; [reflexivity |].
      split; simpl; rewrite ?app_nil_r; reflexivity. }
  split; [| split; [| split; [| split]]].
  - unfold runResult. destruct Hmain as [-> | (t1 & dump & tail & s & _ & _ & _ & -> & ->)];
      reflexivity.
  - destruct Hmain as [-> | (t1 & dump & tail & s & _ & _ & _ & -> & ->)]; reflexivity.
  - unfold runTrace.
    destruct Hmain as [-> | (t1 & dump & tail & s & Hd & _ & _ & -> & ->)];
      [reflexivity |].
    unfold traceOf; simpl.
    rewrite !sentReports_app, (sentReports_dump _ Hd). reflexivity.
  - unfold runTrace.
    destruct Hmain as [H | (t1 & dump & tail & s & Hd & H1 & H2 & -> & ->)].
    + rewrite H.
      rewrite run_eq, try_catch_ignores_debug.
      pose proof (tryCatch_outcome env) as Hout.
      inversion Hout as [Hp Heq | stage s Hp Hstage Hload Heq
                         | stage s error Hp Hstage Hload Heq];
        clear Hout; unfold settle;
        rewrite (finallyBlock_off (setDebug false env) _ eq_refl);
        unfold traceOf; simpl;
        rewrite ?filter_app, ?(outsideDump_stage _ Hstage); reflexivity.
    + unfold traceOf; simpl.
      rewrite !filter_app, H1, H2, (outsideDump_dump _ Hd). reflexivity.
  - intros s [Hoff | Hnone];
      [apply finallyBlock_off; exact Hoff | apply finallyBlock_without_config; exact Hnone].
Qed.

Lemma scenario_debug_logs_readable : dumpReadable Scenario.debugLogs.
Proof.
  intros _ dir cfg _ Hcfg. injection Hcfg as <-. reflexivity.
Defined.

(** Debug mode on with readable logs: the records are those of the run with
    debug mode off. *)
Lemma debug_dump_is_a_frame_witness :
  runResult Scenario.debugLogs = runResult Scenario.happy /\
  sentReports (runTrace Scenario.debugLogs) = sentReports (runTrace Scenario.happy) /\
  filter outsideDump (runTrace Scenario.debugLogs) = runTrace Scenario.happy.
Proof.
  destruct (debug_dump_is_a_frame Scenario.debugLogs scenario_debug_logs_readable)
    as (H1 & _ & H3 & H4 & _).
  split; [exact H1 | split; [exact H3 | exact H4]].
Defined.

(** ** Further properties of the specification *)

(** A declared reference outside the merge pattern comes back unchanged,
    whatever the commits. *)
Lemma resolveRef_other_ref_unchanged :
  forall ref checkedOutOid provider,
    ref <> "" -> RefResolver.pull_number ref = None ->
    RefResolver.resolveRef ref checkedOutOid provider = Ok ref.
Proof.
  intros ref checkedOutOid provider Hne Hnone. unfold RefResolver.resolveRef.
  rewrite (nonempty_eqb_false ref Hne), Hnone. reflexivity.
Qed.

Example branch_ref_unchanged :
  RefResolver.resolveRef "refs/heads/main" (RefResolver.repeat_string "a" 40)
    (fun _ => Ok (RefResolver.repeat_string "b" 40)) = Ok "refs/heads/main".
Proof. reflexivity. Qed.

(** [runWrapper] turns whatever [run] throws into a failure mark: it never
    throws itself. *)
Lemma runWrapper_never_throws :
  forall env s, resultOf (runWrapper env s) = Ok tt.
Proof.
  intros env s. unfold runWrapper, tryCatch.
  destruct (run env s) as [[t s'] [[] | e]]; reflexivity.
Qed.

Example runWrapper_marks_the_dump_failure :
  lastEvent (traceOf (runWrapper Scenario.debugNoLogs initialLocals))
  = Some (EvConsoleLog Scenario.enoent) /\
  existsb isSetFailed (traceOf (runWrapper Scenario.debugNoLogs initialLocals)) = true.
Proof. split; reflexivity. Qed.

(** ** Further properties of the code *)

(** X1: [runWrapper] does what [run] does and, when [run] throws, marks the
    action failed with "analyze action failed: " followed by the error and
    prints the error; it never throws. *)
Theorem runWrapper_marks_what_run_throws :
  forall env s,
    resultOf (runWrapper env s) = Ok tt /\
    localsOf (runWrapper env s) = localsOf (run env s) /\
    traceOf (runWrapper env s)
    = (traceOf (run env s) ++
       match resultOf (run env s) with
       | Ok _ => []
       | Err e => [EvSetFailed ("analyze action failed: " ++ errorToString e);
                   EvConsoleLog e]
       end)%list.
Proof.
  intros env s. unfold runWrapper, tryCatch.
  destruct (run env s) as [[t s'] [[] | e]]; unfold traceOf, localsOf, resultOf; simpl.
  - rewrite app_nil_r. repeat split.
  - repeat split.
Qed.

(** X2: the [catch] block of [run] marks the run failed with the error's
    message, prints the error and sends one record, of status "failure", whose
    cause is the message and whose exception is the stack; the record carries
    the partial statistics of a [CodeQLAnalysisError], and for any other error
    the statistics the [try] block had assigned before it threw. *)
Theorem catchBlock_failure_record :
  forall env startedAt error s,
    exists r,
      traceOf (catchBlock env startedAt error s)
      = [EvSetFailed (message error); EvConsoleLog error; EvSendStatusReport r] /\
      resultOf (catchBlock env startedAt error s) = Ok Return /\
      config (localsOf (catchBlock env startedAt error s)) = config s /\
      ActionStatus_to_string (status (base r)) = "failure" /\
      cause (base r) = Some (message error) /\
      exception (base r) = option_map (truncateStack env) (stack error) /\
      analysis r = match err_class error with
                   | CodeQLAnalysisError q => spreadQueries q
                   | _ => match stats s with Some st => st | None => emptyStats end
                   end.
Proof.
  intros env startedAt error s. rewrite catchBlock_eq.
  eexists. split; [reflexivity |]. split; [reflexivity |].
  split; [apply catchLocals_config |].
  split.
  - change (status (base (finishReport env startedAt (stats (catchLocals error s))
                                       (Some error))))
      with (finishStatus (stats (catchLocals error s)) (Some error)).
    unfold finishStatus. rewrite orb_true_r. reflexivity.
  - split; [reflexivity |]. split; [reflexivity |].
    destruct error as [[| | st | q] msg stk]; reflexivity.
Qed.

(** X3: unless the flag is "true", the host is github.com and the default
    branch is analyzed, [uploadDatabases] asks nothing of the hosting API and
    bundles no database. *)
Theorem no_request_before_local_checks :
  forall env nwo cfg api s,
    localChecks env cfg = false ->
    requestedRoutes (traceOf (uploadDatabases env nwo cfg api s)) = [] /\
    existsb isDatabaseBundle (traceOf (uploadDatabases env nwo cfg api s)) = false.
Proof.
  intros env nwo cfg api s Hc. revert Hc.
  unfold uploadDatabases, localChecks, getRequiredInput, bind, emit, liftR, ret, throw.
  destruct (getInput env "upload-database" =? ""); [intros _; split; reflexivity |].
  destruct (getInput env "upload-database" =? "true"); simpl;
    [| intros _; split; reflexivity].
  destruct (GitHubVariant_eqb (gv_type (gitHubVersion cfg)) DOTCOM); simpl;
    [| intros _; split; reflexivity].
  destruct (isAnalyzingDefaultBranch env) as [[|] | e]; simpl;
    [discriminate | intros _; split; reflexivity | intros _; split; reflexivity].
Qed.

Lemma no_request_before_local_checks_witness :
  requestedRoutes (traceOf (uploadDatabases Scenario.happy Scenario.nwo
                                            Scenario2.enterpriseCfg Scenario.api
                                            initialLocals)) = [] /\
  existsb isDatabaseBundle
          (traceOf (uploadDatabases Scenario.happy Scenario.nwo Scenario2.enterpriseCfg
                                    Scenario.api initialLocals)) = false.
Proof.
  apply (no_request_before_local_checks Scenario.happy Scenario.nwo
           Scenario2.enterpriseCfg Scenario.api initialLocals).
  reflexivity.
Defined.

(** X4: when the three local checks pass and the probe of the repository
    fails, [uploadDatabases] makes that one request and returns without
    bundling or uploading anything; a 404 is reported by one debug line, any
    other error is printed and reported by an info line that quotes it. *)
Theorem probe_failure_skips_upload :
  forall env nwo cfg api s e,
    localChecks env cfg = true ->
    clientRequest env api probeRoute nwo None = Err e ->
    uploadDatabases env nwo cfg api s
    = (EvApiRequest probeRoute ::
       (if isHTTP404 e
        then [EvLoggerDebug
                "Repository is not opted in to database uploads. Skipping upload."]
        else [EvConsoleLog e;
              EvLoggerInfo ("Skipping database upload due to unknown error: "
                            ++ errorToString e)]),
       s, Ok tt).
Proof.
  intros env nwo cfg api s e Hc Hp. unfold localChecks in Hc.
  apply andb_true_iff in Hc as [Hc Hb]. apply andb_true_iff in Hc as [Hf Hv].
  unfold uploadDatabases, getRequiredInput, request, tryCatch, bind, emit, liftR, ret,
    throw.
  rewrite (true_is_supplied _ Hf), Hf, Hv.
  destruct (isAnalyzingDefaultBranch env) as [[|] | e']; try discriminate Hb.
  simpl. rewrite Hp. destruct (isHTTP404 e); reflexivity.
Qed.

Lemma probe_failure_skips_upload_witness :
  uploadDatabases Scenario2.notOptedIn Scenario.nwo Scenario.cfg Scenario.api
                  initialLocals
  = ([EvApiRequest probeRoute;
      EvLoggerDebug "Repository is not opted in to database uploads. Skipping upload."],
     initialLocals, Ok tt).
Proof.
  apply (probe_failure_skips_upload Scenario2.notOptedIn Scenario.nwo Scenario.cfg
           Scenario.api initialLocals Scenario2.notFound); reflexivity.
Defined.

Lemma uploadDatabase_without_archive :
  forall env nwo cfg api language s e,
    databaseBundle env (codeQLCmd cfg) (getCodeQLDatabasePath env cfg language)
                   (getCodeQLDatabasePath env cfg language ++ ".zip") = Err e \/
    (databaseBundle env (codeQLCmd cfg) (getCodeQLDatabasePath env cfg language)
                    (getCodeQLDatabasePath env cfg language ++ ".zip") = Ok tt /\
     readFileSync env (getCodeQLDatabasePath env cfg language ++ ".zip") = Err e) ->
    uploadDatabase env nwo cfg api language s
    = ([EvDatabaseBundle (getCodeQLDatabasePath env cfg language)
                         (getCodeQLDatabasePath env cfg language ++ ".zip")],
       s, Err e).
Proof.
  intros env nwo cfg api language s e [Hb | [Hb Hr]];
    unfold uploadDatabase, bind, emit, liftR; cbv zeta; rewrite Hb; simpl;
    [| rewrite Hr]; reflexivity.
Qed.

(** X5: when bundling a language's database or reading its archive fails, the
    loop of [uploadDatabases] throws that error: the languages before it have
    had their upload requested, its own upload and those of the languages
    after it are never requested. *)
Theorem archive_failure_stops_the_loop :
  forall env nwo cfg api before language after s e,
    (forall l, In l before -> bundleReadable env cfg l) ->
    databaseBundle env (codeQLCmd cfg) (getCodeQLDatabasePath env cfg language)
                   (getCodeQLDatabasePath env cfg language ++ ".zip") = Err e \/
    (databaseBundle env (codeQLCmd cfg) (getCodeQLDatabasePath env cfg language)
                    (getCodeQLDatabasePath env cfg language ++ ".zip") = Ok tt /\
     readFileSync env (getCodeQLDatabasePath env cfg language ++ ".zip") = Err e) ->
    resultOf (forEach (uploadDatabase env nwo cfg api)
                      (before ++ language :: after)%list s) = Err e /\
    requestedRoutes (traceOf (forEach (uploadDatabase env nwo cfg api)
                                      (before ++ language :: after)%list s))
    = map uploadRoute before.
Proof.
  intros env nwo cfg api before language after s e Hbefore Hfail.
  induction before as [| l before IH].
  - simpl. unfold bind.
    rewrite (uploadDatabase_without_archive env nwo cfg api language s e Hfail).
    split; reflexivity.
  - destruct (uploadDatabase_attempt env nwo cfg api l s) as (t1 & H1 & R1);
      [apply Hbefore; left; reflexivity |].
    destruct IH as [IHr IHt]; [intros l' Hl'; apply Hbefore; right; exact Hl' |].
    simpl. unfold bind. rewrite H1.
    destruct (forEach (uploadDatabase env nwo cfg api) (before ++ language :: after)%list s)
      as [[t2 s2] r2].
    unfold resultOf, traceOf in *. simpl in *.
    split; [exact IHr |].
    rewrite requestedRoutes_app, R1, IHt. reflexivity.
Qed.

Lemma archive_failure_stops_the_loop_witness :
  resultOf (forEach (uploadDatabase Scenario2.secondBundleFails Scenario.nwo Scenario.cfg
                                    Scenario.api)
                    ["javascript"; "python"] initialLocals) = Err Scenario.bundleError /\
  requestedRoutes
    (traceOf (forEach (uploadDatabase Scenario2.secondBundleFails Scenario.nwo
                                      Scenario.cfg Scenario.api)
                      ["javascript"; "python"] initialLocals))
  = ["PUT /repos/:owner/:repo/code-scanning/databases/javascript"].
Proof.
  apply (archive_failure_stops_the_loop Scenario2.secondBundleFails Scenario.nwo
           Scenario.cfg Scenario.api ["javascript"] "python" [] initialLocals
           Scenario.bundleError).
  - intros l [<- | []]. split; [reflexivity | eexists; reflexivity].
  - left. reflexivity.
Defined.

(** ** The published database locations *)






(** ** The run, case by case *)

Lemma tryCatch_unfold :
  forall env,
    tryCatch (tryBlock env (now env)) (catchBlock env (now env)) initialLocals
    = tried env.
Proof.
  intros env.
  unfold tried, failed, tryCatch, tryBlock, proceedBlock, actionsUtil_sendStatusReport,
    bind, emit, ret, liftR, setConfig, throw. cbv zeta.
  destruct (statusEndpoint env (startingReport env (now env))); [| reflexivity].
  cbn [negb].
  destruct (getTemporaryDirectory env) as [dir | e];
    [| rewrite catchBlock_eq; reflexivity].
  destruct (getConfig env dir) as [[cfg |] | e];
    [| rewrite catchBlock_eq; reflexivity | rewrite catchBlock_eq; reflexivity].
  cbn [stats initialLocals].
  destruct (analyzeBlock env cfg (mkLocals None (Some cfg))) as [[t s] [c | e]];
    [reflexivity | rewrite catchBlock_eq; reflexivity].
Qed.

Lemma behaves_emit_any :
  forall {A} (E : Event -> Prop) I (Q : A -> Prop) (m : M A),
    behaves E I Q m ->
    forall s, I s -> Forall E (traceOf (m s)) /\ I (localsOf (m s)).
Proof.
  intros A E I Q m Hm s Hs. destruct (Hm s Hs) as (Ht & Hi & _). split; assumption.
Qed.

(** A property of the events of the stages and of the statistics they assign
    extends to the whole run, once it holds of what [run] does around them. *)
Lemma run_invariant :
  forall (E : Event -> Prop) (J : option AnalysisStatusReport -> Prop) env,
    (forall ev, isOrchestration ev = true -> E ev) ->
    E (EvSendStatusReport (startingReport env (now env))) ->
    (forall st error, J st ->
                      E (EvSendStatusReport (finishReport env (now env) st error))) ->
    J None ->
    (forall q, J (Some (spreadQueries q))) ->
    (forall cfg, behaves E (fun s => J (stats s)) anyValue (analyzeBlock env cfg)) ->
    Forall E (runTrace env).
Proof.
  intros E J env Horch Hstart Hsend HJ0 HJq Han.
  assert (Hcatch : forall e s, J (stats s) -> J (stats (catchLocals e s))).
  { intros [[| | st | q] msg stk] s Hs; try exact Hs. apply HJq. }
  assert (Htried : Forall E (traceOf (tried env)) /\ J (stats (localsOf (tried env)))).
  { unfold tried, failed.
    destruct (statusEndpoint env (startingReport env (now env)));
      [| split; [repeat constructor; exact Hstart | exact HJ0]].
    destruct (getTemporaryDirectory env) as [dir | e].
    2: { split; [| apply Hcatch; exact HJ0].
         repeat constructor; auto; apply Hsend; apply Hcatch; exact HJ0. }
    destruct (getConfig env dir) as [[cfg |] | e].
    - destruct (behaves_emit_any E _ _ _ (Han cfg) (mkLocals None (Some cfg)) HJ0)
        as [Ht Hs].
      destruct (analyzeBlock env cfg (mkLocals None (Some cfg))) as [[t s] [c | e]];
        unfold traceOf, localsOf in *; simpl in *.
      + split; [| exact Hs]. repeat constructor; auto.
      + split; [| apply Hcatch; exact Hs].
        constructor; [exact Hstart |]. constructor; [apply Horch; reflexivity |].
        apply Forall_app. split; [exact Ht |].
        repeat constructor; auto; apply Hsend; apply Hcatch; exact Hs.
    - split; [| apply Hcatch; exact HJ0].
      repeat constructor; auto; apply Hsend; apply Hcatch; exact HJ0.
    - split; [| apply Hcatch; exact HJ0].
      repeat constructor; auto; apply Hsend; apply Hcatch; exact HJ0. }
  unfold runTrace. rewrite run_eq, tryCatch_unfold.
  destruct Htried as [Ht Hs].
  destruct (tried env) as [[t1 s1] r1]. unfold settle, traceOf, localsOf in *.
  simpl in Ht, Hs.
  destruct (finallyBlock_dump env s1) as (dump & r & Hf & Hd). rewrite Hf.
  assert (Hdump : Forall E dump).
  { rewrite Forall_forall in *. intros ev Hev. apply Horch.
    specialize (Hd ev Hev). unfold DumpOutput in Hd.
    destruct ev; try discriminate Hd; reflexivity. }
  destruct r as [[] | e]; [destruct r1 as [[|] | e'] |]; simpl;
    (constructor; [apply Horch; reflexivity |]);
    repeat (apply Forall_app; split); auto;
    repeat constructor; apply Hsend; exact Hs.
Qed.

(** The database upload performs events of its own kind only. *)
Lemma uploadDatabases_events :
  forall (E : Event -> Prop) I env nwo cfg api,
    (forall ev, isDatabaseUploadEvent ev = true -> E ev) ->
    behaves E I anyValue (uploadDatabases env nwo cfg api).
Proof.
  intros E I env nwo cfg api HE.
  unfold uploadDatabases, uploadDatabase, request. cbv zeta.
  repeat first
    [ apply behaves_getRequiredInput
    | apply behaves_liftR
    | apply behaves_throw
    | apply behaves_emit; apply HE; reflexivity
    | apply behaves_ret; exact Logic.I
    | apply behaves_forEach; intros
    | apply behaves_tryCatch; [ | intros ]
    | apply behaves_bind; [ | intros ]
    | match goal with
      | |- behaves _ _ _ (if ?b then _ else _) => destruct b
      | |- behaves _ _ _ (match ?x with _ => _ end) => destruct x
      end ].
Qed.

Lemma behaves_setStats_stats :
  forall E (J : option AnalysisStatusReport -> Prop) v,
    J (Some v) -> behaves E (fun s => J (stats s)) anyValue (setStats v).
Proof.
  intros E J v Hv s Hs; simpl.
  split; [constructor | split; [exact Hv | intros; exact Logic.I]].
Qed.

(** A bind whose first action says something about its value. *)
Lemma behaves_bind_value :
  forall {A B} (E : Event -> Prop) I (Qm : A -> Prop) (Q : B -> Prop)
         (m : M A) (k : A -> M B),
    behaves E I Qm m -> (forall a, Qm a -> behaves E I Q (k a)) ->
    behaves E I Q (bind m k).
Proof.
  intros A B E I Qm Q m k Hm Hk s Hs. unfold bind.
  destruct (Hm s Hs) as (Ht & Hi & Hq).
  destruct (m s) as [[t1 s1] [a | e]]; unfold traceOf, localsOf, resultOf in *;
    simpl in *.
  - destruct (Hk a (Hq a eq_refl) s1 Hi) as (Ht2 & Hi2 & Hq2).
    destruct (k a s1) as [[t2 s2] r]; simpl in *.
    repeat split; auto. apply Forall_app; split; assumption.
  - repeat split; auto. intros b Heq; discriminate.
Qed.

Lemma getRequiredInput_value :
  forall E I env name,
    behaves E I (fun v => v = getInput env name) (getRequiredInput env name).
Proof.
  intros E I env name. unfold getRequiredInput.
  destruct (getInput env name =? ""); [apply behaves_throw | apply behaves_ret; reflexivity].
Qed.

(** ** The toggles of the stages *)

Ltac stage_step tac :=
  apply behaves_bind;
  [ solve [ repeat first
              [ apply behaves_getRequiredInput
              | apply behaves_getRequiredEnvParam
              | apply behaves_liftR
              | apply behaves_throw
              | apply behaves_emit; tac
              | apply behaves_ret; exact Logic.I
              | apply behaves_bind; [ | intros ]
              | match goal with
                | |- behaves _ _ _ (if ?b then _ else _) => destruct b
                end ] ]
  | intros ].

Lemma analyzeBlock_without_upload :
  forall env cfg,
    getInput env "upload" <> "true" ->
    behaves withoutResultUpload (fun s => statsWithoutUpload (stats s)) anyValue
            (analyzeBlock env cfg).
Proof.
  intros env cfg Hoff. unfold analyzeBlock. cbv zeta.
  do 11 stage_step ltac:(exact Logic.I).
  apply behaves_bind_value with (Qm := fun v => v = getInput env "upload");
    [apply getRequiredInput_value | intros upload ->].
  destruct (String.eqb_spec (getInput env "upload") "true") as [Heq | _];
    [contradiction |].
  apply behaves_bind.
  - apply behaves_bind; [apply behaves_emit; exact Logic.I | intros _].
    apply behaves_setStats_stats. repeat split.
  - intros _. do 2 stage_step ltac:(exact Logic.I).
    apply behaves_bind.
    + apply uploadDatabases_events. intros ev Hev.
      destruct ev; try discriminate Hev; exact Logic.I.
    + intros _. apply behaves_ret. exact Logic.I.
Qed.

(** X7: when the "upload" input is not "true", the results are never uploaded
    and no status record of the run carries a field of the result upload. *)
Theorem upload_toggle_off :
  forall env,
    getInput env "upload" <> "true" ->
    existsb isUploadFromActions (runTrace env) = false /\
    Forall (fun r => withoutUploadFields (analysis r)) (sentReports (runTrace env)).
Proof.
  intros env Hoff.
  assert (H : Forall withoutResultUpload (runTrace env)).
  { apply run_invariant with (J := statsWithoutUpload).
    - intros ev Hev. destruct ev; try discriminate Hev; exact Logic.I.
    - repeat split.
    - intros [a |] error Hst; [exact Hst | repeat split].
    - exact Logic.I.
    - intros q. repeat split.
    - intros cfg. apply analyzeBlock_without_upload. exact Hoff. }
  induction H as [| ev tr Hev Htr [IH1 IH2]]; [split; [reflexivity | constructor] |].
  destruct ev; simpl in *; try contradiction; auto.
Qed.

Lemma upload_toggle_off_witness :
  existsb isUploadFromActions (runTrace Scenario2.quiet) = false /\
  Forall (fun r => withoutUploadFields (analysis r))
         (sentReports (runTrace Scenario2.quiet)).
Proof.
  apply (upload_toggle_off Scenario2.quiet). discriminate.
Defined.

Lemma analyzeBlock_cleanup :
  forall env cfg,
    behaves (cleanupAsAsked env) (fun s => True) anyValue (analyzeBlock env cfg).
Proof.
  intros env cfg. unfold analyzeBlock. cbv zeta.
  do 9 stage_step ltac:(exact Logic.I).
  apply behaves_bind.
  - unfold getOptionalInput, cleanupLevelIsNone.
    destruct (getInput env "cleanup-level" =? "") eqn:Hempty; cbn [negb].
    + apply behaves_bind; [| intros _; apply behaves_liftR].
      apply behaves_emit. simpl. rewrite Hempty. split; [| reflexivity].
      intros Heq. rewrite Heq in Hempty. discriminate Hempty.
    + destruct (getInput env "cleanup-level" =? "none") eqn:Hnone; cbn [negb].
      * apply behaves_ret. exact Logic.I.
      * apply behaves_bind; [| intros _; apply behaves_liftR].
        apply behaves_emit. simpl. rewrite Hempty. split; [| reflexivity].
        intros Heq. rewrite Heq in Hnone. discriminate Hnone.
  - intros _. do 2 stage_step ltac:(exact Logic.I).
    apply behaves_bind.
    + match goal with
      | |- behaves _ _ _ (if ?b then _ else _) => destruct b
      end.
      * repeat (apply behaves_bind; [| intros]);
          first [apply behaves_emit; exact Logic.I | apply behaves_liftR | idtac].
        intros s Hs; simpl. split; [constructor | split; [exact Logic.I | intros; exact Logic.I]].
      * apply behaves_bind; [apply behaves_emit; exact Logic.I | intros _].
        intros s Hs; simpl. split; [constructor | split; [exact Logic.I | intros; exact Logic.I]].
    + intros _. do 2 stage_step ltac:(exact Logic.I).
      apply behaves_bind.
      * apply uploadDatabases_events. intros ev Hev.
        destruct ev; try discriminate Hev; exact Logic.I.
      * intros _. apply behaves_ret. exact Logic.I.
Qed.

(** X8: in every run, a cleanup is run only when the "cleanup-level" input is
    not "none", and at the level the input names, "brutal" when the input is
    absent. *)
Theorem cleanup_runs_as_asked :
  forall env, Forall (cleanupAsAsked env) (runTrace env).
Proof.
  intros env. apply run_invariant with (J := fun _ => True).
  - intros ev Hev. destruct ev; try discriminate Hev; exact Logic.I.
  - exact Logic.I.
  - intros; exact Logic.I.
  - exact Logic.I.
  - intros; exact Logic.I.
  - intros cfg. apply analyzeBlock_cleanup.
Qed.

Example cleanup_none_runs_no_cleanup :
  existsb (fun ev => match ev with EvRunCleanup _ => true | _ => false end)
          (runTrace Scenario2.quiet) = false.
Proof. reflexivity. Qed.

Example cleanup_defaults_to_brutal :
  In (EvRunCleanup "brutal") (runTrace Scenario.happy).
Proof. simpl. auto 10. Qed.

(** ** The order of the stages *)

Lemma stagesOf_app :
  forall t1 t2, stagesOf (t1 ++ t2)%list = (stagesOf t1 ++ stagesOf t2)%list.
Proof.
  induction t1 as [| ev t1 IH]; intros t2; simpl; [reflexivity |].
  destruct (stageRank ev); simpl; rewrite IH; reflexivity.
Qed.

Lemma stagesOf_dump :
  forall t, Forall DumpOutput t -> stagesOf t = [].
Proof.
  induction 1 as [| ev t Hev Ht IH]; simpl; [reflexivity |].
  destruct ev; try discriminate Hev; simpl; exact IH.
Qed.

(** The events of the database upload may follow any stage. *)
Lemma database_upload_stage :
  forall t,
    Forall (fun ev => stageRank ev = Some 4%nat \/ stageRank ev = None) t ->
    forall lo, (lo <= 4)%nat -> inStageOrder lo (stagesOf t) = true.
Proof.
  induction 1 as [| ev t Hev Ht IH]; intros lo Hlo; simpl; [reflexivity |].
  destruct Hev as [-> | ->]; simpl.
  - rewrite (IH 4%nat (le_n 4)), andb_true_r. apply Nat.leb_le. exact Hlo.
  - apply IH. exact Hlo.
Qed.

Lemma uploadDatabases_stage :
  forall env nwo cfg api s lo,
    (lo <= 4)%nat ->
    inStageOrder lo (stagesOf (traceOf (uploadDatabases env nwo cfg api s))) = true.
Proof.
  intros env nwo cfg api s lo Hlo. apply database_upload_stage; [| exact Hlo].
  apply (uploadDatabases_events
           (fun ev => stageRank ev = Some 4%nat \/ stageRank ev = None)
           (fun _ => True) env nwo cfg api); [| exact Logic.I].
  intros ev Hev. destruct ev; try discriminate Hev; simpl; auto.
Qed.

Lemma analyzeBlock_stage_order :
  forall env cfg s,
    inStageOrder 0 (stagesOf (traceOf (analyzeBlock env cfg s))) = true.
Proof.
  intros env cfg s.
  unfold analyzeBlock, bind, getRequiredInput, getRequiredEnvParam, emit, liftR, ret,
    throw, setStats. cbv zeta.
  repeat match goal with
         | |- context [uploadDatabases ?e ?n ?c ?a ?s'] =>
             let H := fresh "Hup" in
             assert (H : forall lo, (lo <= 4)%nat ->
                           inStageOrder lo
                             (stagesOf (traceOf (uploadDatabases e n c a s'))) = true)
               by (intros; apply uploadDatabases_stage; assumption);
             destruct (uploadDatabases e n c a s') as [[? ?] [[] | ?]]
         | |- context [if ?b then _ else _] => destruct b
         | |- context [match ?r with Ok _ => _ | Err _ => _ end] => destruct r
         end;
    unfold traceOf in *; simpl in *; rewrite ?app_nil_r;
    try reflexivity;
    match goal with
    | H : forall lo, (lo <= 4)%nat -> _ |- _ => apply H; repeat constructor
    end.
Qed.

(** X9: in every run the stages come in one order: the analysis, the cleanup,
    the publication of the database locations, the upload of the results and
    the upload of the databases; each of the first four happens at most once
    and none happens after a later one. *)
Theorem stages_run_in_order :
  forall env, inStageOrder 0 (stagesOf (runTrace env)) = true.
Proof.
  intros env. unfold runTrace. rewrite run_eq, tryCatch_unfold.
  unfold tried, failed.
  assert (Hsettle :
            forall t s r,
              inStageOrder 0 (stagesOf t) = true ->
              inStageOrder 0 (stagesOf (traceOf (settle env (t, s, r)))) = true).
  { intros t s r Ht. unfold settle.
    destruct (finallyBlock_dump env s) as (dump & r' & Hf & Hd). rewrite Hf.
    destruct r' as [[] | e']; [destruct r as [[|] | e''] |]; unfold traceOf; simpl;
      rewrite ?stagesOf_app, (stagesOf_dump _ Hd); simpl; rewrite ?app_nil_r; exact Ht. }
  destruct (statusEndpoint env (startingReport env (now env)));
    [| apply Hsettle; reflexivity].
  destruct (getTemporaryDirectory env) as [dir | e];
    [| apply Hsettle; reflexivity].
  destruct (getConfig env dir) as [[cfg |] | e];
    [| apply Hsettle; reflexivity
     | apply Hsettle; reflexivity].
  pose proof (analyzeBlock_stage_order env cfg (mkLocals None (Some cfg))) as Hord.
  destruct (analyzeBlock env cfg (mkLocals None (Some cfg))) as [[t s] [c | e]];
    unfold traceOf in Hord; simpl in Hord.
  - apply Hsettle. exact Hord.
  - apply Hsettle.
    simpl. rewrite stagesOf_app. simpl. rewrite app_nil_r. exact Hord.
Qed.

Example stages_of_the_happy_run :
  stagesOf (runTrace Scenario.happy) = [0; 1; 2; 3; 4; 4; 4; 4; 4]%nat.
Proof. reflexivity. Qed.

(** ** The failure mark *)

(** X10: a run marks the action failed at most once.  When it does, the mark
    carries the message of the error thrown, and the console line and a
    "failure" record whose cause is that message follow it at once; when it
    does not, no status record of the run has a cause. *)
Theorem failure_mark_matches_record :
  forall env,
    (existsb isSetFailed (runTrace env) = false /\
     Forall (fun r => cause (base r) = None) (sentReports (runTrace env))) \/
    (exists before error r after,
        runTrace env
        = (before ++ EvSetFailed (message error) :: EvConsoleLog error
                  :: EvSendStatusReport r :: after)%list /\
        existsb isSetFailed before = false /\
        existsb isSetFailed after = false /\
        cause (base r) = Some (message error) /\
        ActionStatus_to_string (status (base r)) = "failure").
Proof.
  intros env. unfold runTrace. rewrite run_eq.
  pose proof (tryCatch_outcome env) as Hout.
  inversion Hout as [Hp Heq | stage s Hp Hstage Hload Heq | stage s error Hp Hstage Hload Heq];
    clear Hout; unfold settle.
  - left. rewrite finallyBlock_without_config by reflexivity.
    split; [reflexivity | repeat constructor].
  - left. destruct (finallyBlock_dump env s) as (dump & r & Hf & Hd). rewrite Hf.
    destruct r as [[] | e]; unfold traceOf; simpl;
      rewrite ?existsb_app, ?sentReports_app, (setFailed_stage _ Hstage),
        (setFailed_dump _ Hd), (sentReports_stage _ Hstage), (sentReports_dump _ Hd);
      split; try reflexivity; repeat constructor.
  - right. destruct (finallyBlock_dump env s) as (dump & r & Hf & Hd). rewrite Hf.
    exists (EvInitializeEnvironment (pkg_version env)
              :: EvSendStatusReport (startingReport env (now env)) :: stage)%list,
           error, (finishReport env (now env) (stats s) (Some error)), dump.
    split; [destruct r as [[] | e]; unfold traceOf; simpl;
            rewrite <- app_assoc; reflexivity |].
    split; [simpl; apply setFailed_stage; exact Hstage |].
    split; [apply setFailed_dump; exact Hd |].
    split; [reflexivity |].
    change (status (base (finishReport env (now env) (stats s) (Some error))))
      with (finishStatus (stats s) (Some error)).
    unfold finishStatus. rewrite orb_true_r. reflexivity.
Qed.

(** ** What the dump prints *)

Lemma forEach_walk :
  forall language entries,
    Forall (fun entry =>
              walkable entry = true ->
              forall s, walkEntry language entry s
                        = (flat_map (logGroup language) (filesUnder entry), s, Ok tt))
           entries ->
    forallb walkable entries = true ->
    forall s, forEach (walkEntry language) entries s
              = (flat_map (logGroup language) (flat_map filesUnder entries), s, Ok tt).
Proof.
  intros language entries Hall. induction Hall as [| d ds Hd Hds IH]; intros Hw s.
  - reflexivity.
  - simpl in Hw. apply andb_true_iff in Hw as [Hwd Hwds].
    simpl. unfold bind. rewrite (Hd Hwd s), (IH Hwds s).
    rewrite flat_map_app. reflexivity.
Qed.

Lemma walkEntry_prints_files :
  forall language entry,
    walkable entry = true ->
    forall s, walkEntry language entry s
              = (flat_map (logGroup language) (filesUnder entry), s, Ok tt).
Proof.
  intros language entry.
  induction entry as [name content | name entries IH | name e | name]
    using Dirent_tree_ind; simpl; intros Hw.
  - destruct content as [bytes | e]; [| discriminate]. intros s. reflexivity.
  - apply forEach_walk; assumption.
  - discriminate.
  - intros s. reflexivity.
Qed.

(** X11: walking a log directory whose listings and files can all be read
    prints every file under it exactly once, depth first in the order of the
    listings, each in a group of its own named after the language and the
    file; entries that are neither files nor directories are skipped, and the
    walk completes. *)
Theorem walkLogFiles_prints_every_file :
  forall language entries s,
    forallb walkable entries = true ->
    walkLogFiles language (Ok entries) s
    = (flat_map (logGroup language) (flat_map filesUnder entries), s, Ok tt).
Proof.
  intros language entries s Hw. unfold walkLogFiles, bind, liftR.
  rewrite (forEach_walk language entries); [reflexivity | | exact Hw].
  rewrite Forall_forall. intros d _. apply walkEntry_prints_files.
Qed.

Lemma walkLogFiles_prints_every_file_witness :
  walkLogFiles "python" (Ok Scenario.logs) initialLocals
  = ([EvStartGroup "CodeQL Debug Logs - python - database-create.log";
      EvStdoutWrite "created"; EvEndGroup;
      EvStartGroup "CodeQL Debug Logs - python - run.log";
      EvStdoutWrite "ran"; EvEndGroup],
     initialLocals, Ok tt).
Proof.
  apply (walkLogFiles_prints_every_file "python" Scenario.logs initialLocals).
  reflexivity.
Defined.

(** A file that cannot be read stops the walk with its group left open: the
    group is started before the file is read. *)
Example unreadable_file_leaves_group_open :
  forall language name e s,
    walkEntry language (DFile name (Err e)) s
    = ([EvStartGroup ("CodeQL Debug Logs - " ++ language ++ " - " ++ name)], s, Err e).
Proof. intros. reflexivity. Qed.

(** ** What the analysis needs, and what its failure leaves *)

Lemma settle_trace :
  forall env t s r,
    exists dump tail,
      traceOf (settle env (t, s, r))
      = (EvInitializeEnvironment (pkg_version env) :: t ++ dump ++ tail)%list /\
      Forall DumpOutput dump /\
      (tail = [] \/
       r = Ok Fallthrough /\
       tail = [EvSendStatusReport (finishReport env (now env) (stats s) None)]).
Proof.
  intros env t s r. unfold settle.
  destruct (finallyBlock_dump env s) as (dump & r' & Hf & Hd). rewrite Hf.
  destruct r' as [[] | e']; [destruct r as [[|] | e''] |]; unfold traceOf; simpl.
  - exists dump, [EvSendStatusReport (finishReport env (now env) (stats s) None)].
    repeat split; auto.
  - exists dump, []. rewrite app_nil_r. repeat split; auto.
  - exists dump, []. rewrite app_nil_r. repeat split; auto.
  - exists dump, []. rewrite app_nil_r. repeat split; auto.
Qed.

Lemma runAnalyze_dump :
  forall t, Forall DumpOutput t -> existsb isRunAnalyze t = false.
Proof.
  induction 1 as [| ev t Hev Ht IH]; simpl; [reflexivity |].
  destruct ev; try discriminate Hev; simpl; exact IH.
Qed.

Lemma settle_runAnalyze :
  forall env t s r,
    existsb isRunAnalyze (traceOf (settle env (t, s, r))) = existsb isRunAnalyze t.
Proof.
  intros env t s r.
  destruct (settle_trace env t s r) as (dump & tail & -> & Hd & Htail).
  simpl. rewrite !existsb_app, (runAnalyze_dump _ Hd).
  destruct Htail as [-> | [_ ->]]; simpl; rewrite ?orb_false_r; reflexivity.
Qed.

Lemma analyzeBlock_needs_inputs :
  forall env cfg s,
    existsb isRunAnalyze (traceOf (analyzeBlock env cfg s)) = true ->
    getInput env "token" <> "" /\
    processEnv env "GITHUB_SERVER_URL" <> "" /\
    getInput env "output" <> "" /\
    getInput env "add-snippets" <> "".
Proof.
  intros env cfg s.
  unfold analyzeBlock, bind, getRequiredInput, getRequiredEnvParam, throw, ret.
  cbv zeta.
  destruct (String.eqb_spec (getInput env "token") "") as [| Ht];
    [discriminate |].
  destruct (String.eqb_spec (processEnv env "GITHUB_SERVER_URL") "") as [| Hu];
    [discriminate |].
  destruct (String.eqb_spec (getInput env "output") "") as [| Ho];
    [discriminate |].
  unfold liftR at 1.
  destruct (getMemoryFlag env (getOptionalInput env "ram")) as [mem | e];
    [| discriminate].
  destruct (String.eqb_spec (getInput env "add-snippets") "") as [| Ha];
    [discriminate |].
  intros _. repeat split; assumption.
Qed.

(** X13: the analysis engine is invoked only in a run that the server let
    proceed, that found a configuration, and whose "token", "output" and
    "add-snippets" inputs and GITHUB_SERVER_URL environment parameter are
    supplied. *)
Theorem analysis_needs_configuration_and_inputs :
  forall env,
    existsb isRunAnalyze (runTrace env) = true ->
    statusEndpoint env (startingReport env (now env)) = true /\
    (exists dir cfg,
        getTemporaryDirectory env = Ok dir /\ getConfig env dir = Ok (Some cfg)) /\
    getInput env "token" <> "" /\
    processEnv env "GITHUB_SERVER_URL" <> "" /\
    getInput env "output" <> "" /\
    getInput env "add-snippets" <> "".
Proof.
  intros env. unfold runTrace. rewrite run_eq, tryCatch_unfold.
  unfold tried, failed.
  destruct (statusEndpoint env (startingReport env (now env)));
    [| rewrite settle_runAnalyze; discriminate].
  destruct (getTemporaryDirectory env) as [dir | e] eqn:Hdir;
    [| rewrite settle_runAnalyze; discriminate].
  destruct (getConfig env dir) as [[cfg |] | e] eqn:Hcfg;
    [| rewrite settle_runAnalyze; discriminate | rewrite settle_runAnalyze; discriminate].
  pose proof (analyzeBlock_needs_inputs env cfg (mkLocals None (Some cfg))) as Hin.
  destruct (analyzeBlock env cfg (mkLocals None (Some cfg))) as [[t s] [c | e]];
    unfold traceOf in Hin; simpl in Hin;
    rewrite settle_runAnalyze; simpl; rewrite ?existsb_app; simpl;
    rewrite ?orb_false_r; intros Hrun;
    (split; [reflexivity |]); (split; [exists dir, cfg; split; [reflexivity | exact Hcfg] |]);
    apply Hin; exact Hrun.
Qed.

Lemma analysis_needs_configuration_and_inputs_witness :
  statusEndpoint Scenario.happy (startingReport Scenario.happy (now Scenario.happy)) = true /\
  getInput Scenario.happy "token" <> "" /\
  getInput Scenario.happy "output" <> "".
Proof.
  destruct (analysis_needs_configuration_and_inputs Scenario.happy)
    as (Hp & _ & Ht & _ & Ho & _); [reflexivity |].
  split; [exact Hp | split; [exact Ht | exact Ho]].
Defined.

(** X12: when the analysis engine throws a [CodeQLAnalysisError], no later
    stage runs, and the run sends, after the starting record, one record of
    status "failure" that carries the partial statistics, the message and the
    stack of the error. *)
Theorem analysis_error_keeps_partial_statistics :
  forall env dir cfg q msg stk mem snip thr,
    statusEndpoint env (startingReport env (now env)) = true ->
    getTemporaryDirectory env = Ok dir ->
    getConfig env dir = Ok (Some cfg) ->
    getInput env "token" <> "" ->
    processEnv env "GITHUB_SERVER_URL" <> "" ->
    getInput env "output" <> "" ->
    getMemoryFlag env (getOptionalInput env "ram") = Ok mem ->
    getInput env "add-snippets" <> "" ->
    getAddSnippetsFlag env (getInput env "add-snippets") = Ok snip ->
    getThreadsFlag env (getOptionalInput env "threads") = Ok thr ->
    runAnalyzeEngine env (getInput env "output") mem snip thr
                     (getOptionalInput env "category") cfg
    = Err (mkError (CodeQLAnalysisError q) msg stk) ->
    sentReports (runTrace env)
    = [startingReport env (now env);
       finishReport env (now env) (Some (spreadQueries q))
                    (Some (mkError (CodeQLAnalysisError q) msg stk))] /\
    analysis (finishReport env (now env) (Some (spreadQueries q))
                           (Some (mkError (CodeQLAnalysisError q) msg stk)))
    = spreadQueries q /\
    stagesOf (runTrace env) = [0%nat].
Proof.
  intros env dir cfg q msg stk mem snip thr Hp Hd Hc Ht Hu Ho Hm Ha Hs Hth Hrun.
  assert (Hblock : analyzeBlock env cfg (mkLocals None (Some cfg))
                   = ([EvRunAnalyze (getInput env "output")], mkLocals None (Some cfg),
                      Err (mkError (CodeQLAnalysisError q) msg stk))).
  { unfold analyzeBlock, bind, getRequiredInput, getRequiredEnvParam, throw, ret,
      liftR, emit. cbv zeta.
    rewrite (nonempty_eqb_false _ Ht), (nonempty_eqb_false _ Hu),
      (nonempty_eqb_false _ Ho), Hm, (nonempty_eqb_false _ Ha), Hs, Hth.
    simpl. rewrite Hrun. reflexivity. }
  unfold runTrace. rewrite run_eq, tryCatch_unfold.
  unfold tried, failed. rewrite Hp, Hd, Hc, Hblock.
  match goal with
  | |- context [settle env (?t, ?s, ?r)] =>
      destruct (settle_trace env t s r) as (dump & tail & -> & Hdump & Htail)
  end.
  destruct Htail as [-> | [Hr _]]; [| discriminate Hr].
  split; [| split; [reflexivity |]].
  - simpl. rewrite sentReports_app, (sentReports_dump _ Hdump). reflexivity.
  - simpl. rewrite stagesOf_app, (stagesOf_dump _ Hdump). reflexivity.
Qed.

Lemma analysis_error_keeps_partial_statistics_witness :
  sentReports (runTrace Scenario.analysisFailsDebug)
  = [startingReport Scenario.analysisFailsDebug 1000;
     finishReport Scenario.analysisFailsDebug 1000
                  (Some (spreadQueries (mkQueries [] [] (Some "python"))))
                  (Some Scenario.analysisError)] /\
  stagesOf (runTrace Scenario.analysisFailsDebug) = [0%nat].
Proof.
  destruct (analysis_error_keeps_partial_statistics Scenario.analysisFailsDebug "/tmp"
              Scenario.cfg (mkQueries [] [] (Some "python"))
              "Error running analysis for python" (Some "at runAnalyze")
              "--ram=2048" "--no-sarif-add-snippets" "--threads=1")
    as (Hsent & _ & Hstages);
    try reflexivity; try discriminate.
  split; [exact Hsent | exact Hstages].
Defined.

(** ** The requests of the database upload *)

Lemma uploadDatabase_requests :
  forall env nwo cfg api language s,
    (exists t, uploadDatabase env nwo cfg api language s = (t, s, Ok tt) /\
               requestedRoutes t = [uploadRoute language]) \/
    (exists t e, uploadDatabase env nwo cfg api language s = (t, s, Err e) /\
                 requestedRoutes t = []).
Proof.
  intros env nwo cfg api language s.
  unfold uploadDatabase, request, tryCatch, bind, emit, liftR. cbv zeta.
  destruct (databaseBundle env (codeQLCmd cfg) (getCodeQLDatabasePath env cfg language)
                           (getCodeQLDatabasePath env cfg language ++ ".zip"))
    as [[] | e]; simpl.
  2: { right. eexists. eexists. split; reflexivity. }
  destruct (readFileSync env (getCodeQLDatabasePath env cfg language ++ ".zip"))
    as [payload | e]; simpl.
  2: { right. eexists. eexists. split; reflexivity. }
  left.
  destruct (clientRequest env api (uploadRoute language) nwo (Some payload)) as [[] | e];
    simpl; eexists; split; reflexivity.
Qed.

Lemma upload_loop_requests :
  forall env nwo cfg api ls s,
    exists k,
      requestedRoutes (traceOf (forEach (uploadDatabase env nwo cfg api) ls s))
      = map uploadRoute (firstn k ls).
Proof.
  intros env nwo cfg api ls. induction ls as [| l ls IH]; intros s.
  - exists 0%nat. reflexivity.
  - simpl. unfold bind.
    destruct (uploadDatabase_requests env nwo cfg api l s)
      as [(t & -> & Hr) | (t & e & -> & Hr)].
    + destruct (IH s) as (k & Hk). exists (S k).
      destruct (forEach (uploadDatabase env nwo cfg api) ls s) as [[t2 s2] r2].
      unfold traceOf in *. simpl in *.
      rewrite requestedRoutes_app, Hr, Hk. reflexivity.
    + exists 0%nat. unfold traceOf. simpl. exact Hr.
Qed.

(** X14: whatever the collaborators answer, the requests [uploadDatabases]
    makes are none at all, or the probe followed by one upload request for each
    language of an initial part of the configured list, in the order of the
    list: no upload is requested before the probe, none twice, none for a
    language after one that was skipped. *)
Theorem upload_requests_follow_the_languages :
  forall env nwo cfg api s,
    requestedRoutes (traceOf (uploadDatabases env nwo cfg api s)) = [] \/
    exists k,
      requestedRoutes (traceOf (uploadDatabases env nwo cfg api s))
      = probeRoute :: map uploadRoute (firstn k (languages cfg)).
Proof.
  intros env nwo cfg api s.
  unfold uploadDatabases, getRequiredInput, request, tryCatch, bind, emit, liftR, ret,
    throw.
  destruct (getInput env "upload-database" =? ""); [left; reflexivity |].
  destruct (negb (getInput env "upload-database" =? "true")); [left; reflexivity |].
  destruct (negb (GitHubVariant_eqb (gv_type (gitHubVersion cfg)) DOTCOM));
    [left; reflexivity |].
  destruct (isAnalyzingDefaultBranch env) as [[|] | e];
    [| left; reflexivity | left; reflexivity].
  right. cbn [negb].
  destruct (clientRequest env api probeRoute nwo None) as [[] | e]; simpl.
  - destruct (upload_loop_requests env nwo cfg api (languages cfg) s) as (k & Hk).
    exists k.
    destruct (forEach (uploadDatabase env nwo cfg api) (languages cfg) s) as [[t2 s2] r2].
    unfold traceOf in *. simpl in *. rewrite Hk. reflexivity.
  - exists 0%nat. destruct (isHTTP404 e); reflexivity.
Qed.
